(** * atools: live weather index over a watched dump file

    Shallow embedding of
    - [atools::almostEqual] (atools.h),
    - [atools::geo::Rect] (geo/rect.cpp): [contains], [overlaps],
      [crossesAntiMeridian], [splitAtAntiMeridian], [isPoint],
    - [atools::util::FileSystemWatcher] (util/filesystemwatcher.cpp),
    - [atools::fs::weather::XpWeatherReader] (fs/weather/xpweatherreader.cpp),
    - the name functions of fs/bgl/recordtypes.cpp,
    and the properties of the natural-language specification that concern
    them. *)

From Stdlib Require Import ZArith Ascii String List Bool Lia.
From Stdlib Require Import Floats.SpecFloat.
From stdpp Require Import base option list gmap strings.
Import ListNotations.

Local Open Scope Z_scope.

(** ** C++ [float]: IEEE 754 binary32

    The geometry code compares and subtracts [float]s; they are modelled
    exactly, as the specification floats of the standard library at
    precision 24 and maximal exponent 128 (NaN and infinities included). *)
Module F32.

Definition float : Type := spec_float.

Definition prec : Z := 24.
Definition emax : Z := 128.

(** Literal with an integral value, such as [180.f]. *)
Definition of_Z (z : Z) : float := binary_normalize prec emax z 0 false.

(** [a < b], [a <= b] and [a == b]; all false when an operand is NaN. *)
Definition ltb (a b : float) : bool := SFltb a b.
Definition leb (a b : float) : bool := SFleb a b.
Definition eqb (a b : float) : bool := SFeqb a b.
(** [a > b] is [b < a] and [a >= b] is [b <= a] (IEEE 754 comparison). *)
Definition gtb (a b : float) : bool := SFltb b a.
Definition geb (a b : float) : bool := SFleb b a.

Definition sub (a b : float) : float := SFsub prec emax a b.
Definition abs (a : float) : float := SFabs a.

Definition add (a b : float) : float := SFadd prec emax a b.
Definition opp (a : float) : float := SFopp a.

(** Not a number. *)
Definition isNaN (a : float) : bool :=
  match a with S754_nan => true | _ => false end.

(** A number that is not infinite. *)
Definition isFinite (a : float) : bool :=
  match a with S754_zero _ | S754_finite _ _ _ => true | _ => false end.

(** [std::numeric_limits<float>::epsilon()], 2^-23. *)
Definition epsilon : float := S754_finite false 8388608 (-46).
(** [std::numeric_limits<float>::max()]. *)
Definition max : float := SFmax_float prec emax.

End F32.

Declare Scope f32_scope.
Delimit Scope f32_scope with f32.
Infix "<?" := F32.ltb : f32_scope.
Infix "<=?" := F32.leb : f32_scope.
Infix ">?" := F32.gtb : f32_scope.
Infix ">=?" := F32.geb : f32_scope.

(** ** atools.h *)

(** [almostEqual(f1, f2)]: [std::abs(f1 - f2) <= epsilon()]. *)
Definition almostEqual (f1 f2 : F32.float) : bool :=
  F32.leb (F32.abs (F32.sub f1 f2)) F32.epsilon.

(** [almostEqual(f1, f2, epsilon)]: [std::abs(f1 - f2) <= epsilon]. *)
Definition almostEqualEps (f1 f2 epsilon : F32.float) : bool :=
  F32.leb (F32.abs (F32.sub f1 f2)) epsilon.

(** [almostNotEqual(f1, f2)]: [std::abs(f1 - f2) >= epsilon()]. *)
Definition almostNotEqual (f1 f2 : F32.float) : bool :=
  F32.geb (F32.abs (F32.sub f1 f2)) F32.epsilon.

(** [almostNotEqual(f1, f2, epsilon)]: [std::abs(f1 - f2) >= epsilon]. *)
Definition almostNotEqualEps (f1 f2 epsilon : F32.float) : bool :=
  F32.geb (F32.abs (F32.sub f1 f2)) epsilon.

(** [sign(t)] at type [float]: the conversion to [double] is exact, so the
    two comparisons with zero are those of the [float]. *)
Definition sign (t : F32.float) : Z :=
  if F32.gtb t (F32.of_Z 0) then 1
  else if F32.ltb t (F32.of_Z 0) then -1
  else 0.

(** ** Namespace [atools::geo] *)
Module geo.

(** *** geo/pos.h *)
Module Pos.

(** Modelled from the spec: class [Pos] is declared in geo/pos.h, which is
    not part of the sources at hand.  A position is a longitude and a
    latitude, with a sentinel value marking a coordinate that is unset. *)
Record t : Type := mk { lonX : F32.float; latY : F32.float }.

Definition INVALID_VALUE : F32.float := F32.max.

Definition isValid (p : t) : bool :=
  F32.ltb (lonX p) INVALID_VALUE && F32.ltb (latY p) INVALID_VALUE.

Definition EMPTY_POS : t := mk INVALID_VALUE INVALID_VALUE.

(** Modelled from the spec: [Pos::operator==]; two positions are equal when
    both coordinates are, up to the tolerance of [almostEqual]. *)
Definition eqb (a b : t) : bool :=
  almostEqual (lonX a) (lonX b) && almostEqual (latY a) (latY b).

(** Modelled from the spec: the setters [setLonX] and [setLatY] of
    geo/pos.h, which replace one coordinate. *)
Definition setLonX (x : F32.float) (p : t) : t := mk x (latY p).
Definition setLatY (y : F32.float) (p : t) : t := mk (lonX p) y.

End Pos.

(** *** geo/rect.cpp *)
Module Rect.

Local Open Scope f32_scope.

(** [Rect]: the two corners [topLeft] and [bottomRight]. *)
Record t : Type := mk { topLeft : Pos.t; bottomRight : Pos.t }.

(** [Rect(float leftLonX, float topLatY, float rightLonX, float bottomLatY)] *)
Definition make (leftLonX topLatY rightLonX bottomLatY : F32.float) : t :=
  mk (Pos.mk leftLonX topLatY) (Pos.mk rightLonX bottomLatY).

(** Modelled from the spec: the inline accessors of geo/rect.h, which is
    not part of the sources at hand: the edges are the coordinates of the
    two corners, and a rectangle is valid when both corners are. *)
Definition getNorth (r : t) : F32.float := Pos.latY (topLeft r).
Definition getSouth (r : t) : F32.float := Pos.latY (bottomRight r).
Definition getEast (r : t) : F32.float := Pos.lonX (bottomRight r).
Definition getWest (r : t) : F32.float := Pos.lonX (topLeft r).
Definition isValid (r : t) : bool :=
  Pos.isValid (topLeft r) && Pos.isValid (bottomRight r).

(** [Rect::operator==] *)
Definition eqb (a b : t) : bool :=
  Pos.eqb (topLeft a) (topLeft b) && Pos.eqb (bottomRight a) (bottomRight b).

(** [Rect::isPoint(float epsilonDegree)] *)
Definition isPoint (r : t) (epsilonDegree : F32.float) : bool :=
  isValid r &&
  almostEqualEps (Pos.lonX (topLeft r)) (Pos.lonX (bottomRight r)) epsilonDegree &&
  almostEqualEps (Pos.latY (topLeft r)) (Pos.latY (bottomRight r)) epsilonDegree.

(** [Rect::crossesAntiMeridian] *)
Definition crossesAntiMeridian (r : t) : bool :=
  (getEast r <? getWest r) ||
  (almostEqual (getEast r) (F32.of_Z 180) &&
   almostEqual (getWest r) (F32.of_Z (-180))).

(** [Rect::splitAtAntiMeridian] *)
Definition splitAtAntiMeridian (r : t) : list t :=
  if isValid r then
    if crossesAntiMeridian r then
      [ make (getWest r) (getNorth r) (F32.of_Z 180) (getSouth r);
        make (F32.of_Z (-180)) (getNorth r) (getEast r) (getSouth r) ]
    else [ r ]
  else [].

(** The test in the body of the loop of [Rect::contains]: [pos] lies in
    the closed longitude and latitude intervals of [r]. *)
Definition inside (r : t) (pos : Pos.t) : bool :=
  (getWest r <=? Pos.lonX pos) && (Pos.lonX pos <=? getEast r) &&
  (getNorth r >=? Pos.latY pos) && (Pos.latY pos >=? getSouth r).

(** [Rect::contains(const Pos&)]: the loop returns at the first part of
    the split that holds the position. *)
Definition contains (r : t) (pos : Pos.t) : bool :=
  if isValid r || Pos.isValid pos then
    existsb (fun part => inside part pos) (splitAtAntiMeridian r)
  else false.

Section Overlaps.

(** The default argument of [isPoint], declared in geo/rect.h. *)
Variable defaultEpsilon : F32.float.

(** [Rect::overlaps(const Rect&)] *)
Definition overlaps (this other : t) : bool :=
  if negb (isValid this) || negb (isValid other) then false
  else if isPoint this defaultEpsilon && isPoint other defaultEpsilon
  then eqb this other
  else
    let n := getNorth this in let s := getSouth this in
    let e := getEast this in let w := getWest this in
    let n2 := getNorth other in let s2 := getSouth other in
    let e2 := getEast other in let w2 := getWest other in
    if ((n >=? n2) && (s <=? n2))
       || ((n2 >=? n) && (s2 <=? n))
       || ((n >=? s2) && (s <=? s2))
       || ((n2 >=? s) && (s2 <=? s))
    then
      if negb (crossesAntiMeridian this) then
        if negb (crossesAntiMeridian other) then
          if ((e >=? e2) && (w <=? e2))
             || ((e2 >=? e) && (w2 <=? e))
             || ((e >=? w2) && (w <=? w2))
             || ((e2 >=? w) && (w2 <=? w))
          then true else false
        else
          if (w <=? e2) || (e >=? w2) then true else false
      else
        if crossesAntiMeridian other then true
        else
          if (w2 <=? e) || (e2 >=? w) then true else false
    else false.

End Overlaps.

(** [Rect(const Pos& singlePos)] *)
Definition ofPos (singlePos : Pos.t) : t := mk singlePos singlePos.

(** [Rect::overlapsInternal] *)
Definition overlapsInternal (this other : t) : bool :=
  negb ((getEast this <? getWest other) || (getWest this >? getEast other)
        || (getSouth this >? getNorth other) || (getNorth this <? getSouth other)).

(** [Rect::inflate]; the four edges are moved one after the other. *)
Definition inflate (degreesLon degreesLat : F32.float) (r : t) : t :=
  if negb (isValid r) then r
  else
    let r1 :=
      if F32.sub (getWest r) degreesLon >? F32.of_Z (-180)
      then mk (Pos.setLonX (F32.sub (getWest r) degreesLon) (topLeft r)) (bottomRight r)
      else mk (Pos.setLonX (F32.of_Z (-180)) (topLeft r)) (bottomRight r) in
    let r2 :=
      if F32.add (getEast r1) degreesLon <? F32.of_Z 180
      then mk (topLeft r1) (Pos.setLonX (F32.add (getEast r1) degreesLon) (bottomRight r1))
      else mk (topLeft r1) (Pos.setLonX (F32.of_Z 180) (bottomRight r1)) in
    let r3 :=
      if F32.add (getNorth r2) degreesLat <? F32.of_Z 90
      then mk (Pos.setLatY (F32.add (getNorth r2) degreesLat) (topLeft r2)) (bottomRight r2)
      else mk (Pos.setLatY (F32.of_Z 90) (topLeft r2)) (bottomRight r2) in
    if F32.sub (getSouth r3) degreesLat >? F32.of_Z (-90)
    then mk (topLeft r3) (Pos.setLatY (F32.sub (getSouth r3) degreesLat) (bottomRight r3))
    else mk (topLeft r3) (Pos.setLatY (F32.of_Z (-90)) (bottomRight r3)).

End Rect.

End geo.

(** ** Qt values used by the sources *)

(** *** [QDateTime]

    A date-time is either null/invalid ([QDateTime()], also the result of
    a parse that fails) or a valid instant, held as milliseconds since the
    epoch.  Comparison is Qt's: an invalid date-time precedes every valid
    one and two invalid ones are equal. *)
Module QDateTime.

Definition t : Type := option Z.

(** [QDateTime()] *)
Definition null : t := None.

Definition isValid (d : t) : bool :=
  match d with Some _ => true | None => false end.

(** [a < b] *)
Definition ltb (a b : t) : bool :=
  match a, b with
  | None, None => false
  | None, Some _ => true
  | Some _, None => false
  | Some x, Some y => (x <? y)%Z
  end.

(** [a > b] *)
Definition gtb (a b : t) : bool := ltb b a.

End QDateTime.

(** *** [QString], over 8-bit character codes *)
Module QString.

Definition code (c : ascii) : N := N_of_ascii c.

(** [QChar::isSpace]: tab, line feed, vertical tab, form feed, carriage
    return, space, next line (0x85) and no-break space (0xA0). *)
Definition isSpace (c : ascii) : bool :=
  let n := code c in
  ((9 <=? n) && (n <=? 13) || (n =? 32) || (n =? 133) || (n =? 160))%N.

(** Class [\d] of the regular expressions: an ASCII digit. *)
Definition isDigit (c : ascii) : bool :=
  let n := code c in ((48 <=? n) && (n <=? 57))%N.

(** Class [[A-Z0-9]]. *)
Definition isUpperOrDigit (c : ascii) : bool :=
  let n := code c in
  ((65 <=? n) && (n <=? 90) || (48 <=? n) && (n <=? 57))%N.

Fixpoint dropSpaces (l : list ascii) : list ascii :=
  match l with
  | c :: l' => if isSpace c then dropSpaces l' else l
  | [] => []
  end.

(** [QString::trimmed]: white space removed from both ends. *)
Definition trimmed (s : string) : string :=
  string_of_list_ascii
    (rev (dropSpaces (rev (dropSpaces (list_ascii_of_string s))))).

(** [QString::isEmpty] *)
Definition isEmpty (s : string) : bool :=
  match s with EmptyString => true | String _ _ => false end.

(** [QString::size] *)
Definition size (s : string) : Z := Z.of_nat (String.length s).

(** [s.section(' ', 0, 0)]: the text before the first space. *)
Fixpoint section_0_0 (s : string) : string :=
  match s with
  | EmptyString => EmptyString
  | String c s' =>
      if Ascii.eqb c " "%char then EmptyString else String c (section_0_0 s')
  end.

End QString.

(** ** The file system, as [QFileInfo], [QFile] and [QTextStream] show it *)
Module FileSystem.

(** What the sources can observe of one path. *)
Record File : Type := mkFile {
  exists_ : bool;                 (* QFileInfo::exists *)
  isFile : bool;                  (* QFileInfo::isFile *)
  size : Z;                       (* QFileInfo::size, a qint64 *)
  lastModified : QDateTime.t;     (* QFileInfo::lastModified *)
  canOpen : bool;                 (* QFile::open(ReadOnly | Text) succeeds *)
  lines : list string;            (* the text of the file, line by line *)
  failsAfter : option nat         (* Some k: the device fails after k lines *)
}.

(** A file system maps a path to what is found there. *)
Definition t : Type := string -> File.

(** The lines that [QTextStream::readLine] hands out until
    [QTextStream::atEnd] holds: all of them, or those read before the
    device failed. *)
Definition delivered (f : File) : list string :=
  match failsAfter f with
  | Some k => take k (lines f)
  | None => lines f
  end.

(** [QFile::open] followed by reading the stream to its end. *)
Definition openText (f : File) : option (list string) :=
  if canOpen f then Some (delivered f) else None.

(** No file at the path. *)
Definition missing : File := mkFile false false 0 QDateTime.null false [] None.

End FileSystem.

(** ** Namespace [atools::util]: util/filesystemwatcher.cpp *)
Module util.

(** [QTimer]: stopped ([remaining = None]) or running with the time left
    until its next timeout, in milliseconds. *)
Module QTimer.

Record t : Type := mk { singleShot : bool; interval : Z; remaining : option Z }.

(** [QTimer::start(int msec)]: starts, or restarts when already running. *)
Definition start (msec : Z) (tm : t) : t :=
  mk (singleShot tm) msec (Some msec).

(** [QTimer::stop] *)
Definition stop (tm : t) : t := mk (singleShot tm) (interval tm) None.

Definition isActive (tm : t) : bool :=
  match remaining tm with Some _ => true | None => false end.

(** One millisecond passes: the timer and whether it timed out.  A
    single-shot timer stops at its timeout, another one starts over. *)
Definition elapse (tm : t) : t * bool :=
  match remaining tm with
  | None => (tm, false)
  | Some n =>
      if n <=? 1 then
        (if singleShot tm then stop tm
         else mk false (interval tm) (Some (interval tm)), true)
      else (mk (singleShot tm) (interval tm) (Some (n - 1)), false)
  end.

End QTimer.

Module FileSystemWatcher.

(** The signals of the class. *)
Inductive Signal : Type :=
| fileUpdated (filename : string).

(** The members of the class.  [watching] tells whether [fsWatcher] points
    to a [QFileSystemWatcher], whose change signals are then connected to
    [pathOrFileChanged]; [periodicConnected] tells whether the timeout of
    [periodicCheckTimer] is. *)
Record t : Type := mk {
  filename : string;
  fileTimestamp : QDateTime.t;
  lastFileSize : Z;
  delayTimer : QTimer.t;
  periodicCheckTimer : QTimer.t;
  periodicConnected : bool;
  watching : bool
}.

(** State left by the constructor: the delay timer is single-shot and
    nothing runs; the members that the header declares start out empty,
    invalid and zero. *)
Definition create : t :=
  mk EmptyString QDateTime.null 0
     (QTimer.mk true 0 None) (QTimer.mk false 0 None) false false.

Section Constants.

(** The constants of util/filesystemwatcher.h: the least size of a file
    worth reading, the delay of the notification and the period of the
    fallback check, in milliseconds. *)
Variables (minFileSize delayMs checkMs : Z).

(** The test of the inner [if] of [pathOrFileChanged]: first call, newer
    time stamp or other size. *)
Definition differs (f : FileSystem.File) (w : t) : bool :=
  negb (QDateTime.isValid (fileTimestamp w))
  || QDateTime.gtb (FileSystem.lastModified f) (fileTimestamp w)
  || negb (lastFileSize w =? FileSystem.size f).

(** The test of the outer [if] of [pathOrFileChanged]. *)
Definition usable (f : FileSystem.File) : bool :=
  FileSystem.exists_ f && FileSystem.isFile f && (FileSystem.size f >? minFileSize).

(** [FileSystemWatcher::pathOrFileChanged], reading [QFileInfo(filename)]
    as [f]; it emits no signal. *)
Definition pathOrFileChanged (f : FileSystem.File) (w : t) : t * list Signal :=
  let periodic := QTimer.stop (periodicCheckTimer w) in
  if usable f then
    if differs f w then
      (mk (filename w) (FileSystem.lastModified f) (FileSystem.size f)
          (QTimer.start delayMs (delayTimer w)) periodic
          (periodicConnected w) (watching w), [])
    else
      (mk (filename w) (fileTimestamp w) (lastFileSize w)
          (delayTimer w) (QTimer.start checkMs periodic)
          (periodicConnected w) (watching w), [])
  else
    (mk (filename w) (fileTimestamp w) (lastFileSize w)
        (delayTimer w) (QTimer.start checkMs periodic)
        (periodicConnected w) (watching w), []).

(** [FileSystemWatcher::fileUpdatedDelayed] *)
Definition fileUpdatedDelayed (w : t) : t * list Signal :=
  (mk (filename w) (fileTimestamp w) (lastFileSize w)
      (delayTimer w) (QTimer.start checkMs (periodicCheckTimer w))
      (periodicConnected w) (watching w),
   [fileUpdated (filename w)]).

(** [FileSystemWatcher::deleteFsWatcher] *)
Definition deleteFsWatcher (w : t) : t :=
  mk (filename w) (fileTimestamp w) (lastFileSize w)
     (QTimer.stop (delayTimer w)) (QTimer.stop (periodicCheckTimer w))
     false false.

(** [FileSystemWatcher::clear] *)
Definition clear (w : t) : t :=
  let w' := deleteFsWatcher w in
  mk EmptyString (fileTimestamp w') (lastFileSize w')
     (delayTimer w') (periodicCheckTimer w') (periodicConnected w') (watching w').

(** [FileSystemWatcher::createFsWatcher]: the file and its directory are
    watched (a path that cannot be watched only gives a warning) and the
    periodic check is connected and started. *)
Definition createFsWatcher (w : t) : t :=
  mk (filename w) (fileTimestamp w) (lastFileSize w)
     (delayTimer w) (QTimer.start checkMs (periodicCheckTimer w))
     true true.

(** [FileSystemWatcher::setFilenameAndStart] *)
Definition setFilenameAndStart (value : string) (w : t) : t :=
  let w' := clear w in
  createFsWatcher
    (mk value (fileTimestamp w') (lastFileSize w')
        (delayTimer w') (periodicCheckTimer w') (periodicConnected w') (watching w')).

(** *** The event loop

    The events that reach the object: a native change notification,
    delivered while the path shows [f], and the passing of one
    millisecond while the path shows [f], after which the timers that
    ran out call their slots, the delay timer first. *)
Inductive Event : Type :=
| Notified (f : FileSystem.File)
| Elapsed (f : FileSystem.File).

Definition handle (ev : Event) (w : t) : t * list Signal :=
  match ev with
  | Notified f => if watching w then pathOrFileChanged f w else (w, [])
  | Elapsed f =>
      let '(d, delayOut) := QTimer.elapse (delayTimer w) in
      let '(p, periodicOut) := QTimer.elapse (periodicCheckTimer w) in
      let w0 := mk (filename w) (fileTimestamp w) (lastFileSize w) d p
                   (periodicConnected w) (watching w) in
      let '(w1, s1) := if delayOut then fileUpdatedDelayed w0 else (w0, []) in
      let '(w2, s2) :=
        if periodicOut && periodicConnected w1
        then pathOrFileChanged f w1 else (w1, []) in
      (w2, s1 ++ s2)
  end.

(** The events of a list in turn, with all the signals emitted. *)
Fixpoint run (evs : list Event) (w : t) : t * list Signal :=
  match evs with
  | [] => (w, [])
  | ev :: evs' =>
      let '(w1, s1) := handle ev w in
      let '(w2, s2) := run evs' w1 in
      (w2, s1 ++ s2)
  end.

End Constants.

End FileSystemWatcher.

End util.

(** ** Namespace [atools::fs::weather] *)
Module weather.

Import geo.

(** [MetarData]: one observation. *)
Record MetarData : Type := mkMetarData {
  ident : string;
  metar : string;
  timestamp : QDateTime.t
}.

(** A default-constructed [MetarData]. *)
Definition emptyMetarData : MetarData :=
  mkMetarData EmptyString EmptyString QDateTime.null.

(** [MetarResult]: the answer to a station query. *)
Record MetarResult : Type := mkMetarResult {
  requestIdent : string;
  requestPos : Pos.t;
  metarForStation : string;
  metarForNearest : string;
  resultTimestamp : QDateTime.t
}.

(** *** The station index *)
Module Index.

(** Modelled from the spec: the index class lives in a header that is not
    part of the sources at hand.  Section 4.2 of the specification: a map
    from identifier to observation and position, where [insert] overwrites,
    [value] gives a default observation for an unknown identifier, and
    [getTypeOrNearest] gives the entry of the identifier when there is
    one, else the entry whose position is closest to the query position,
    else, in an empty index, the empty identifier. *)
Abbreviation t := (gmap string (MetarData * Pos.t)).

Definition clear (ix : t) : t := ∅.

Definition insert (key : string) (data : MetarData) (pos : Pos.t) (ix : t) : t :=
  <[key := (data, pos)]> ix.

Definition contains (key : string) (ix : t) : bool :=
  match ix !! key with Some _ => true | None => false end.

Definition value (key : string) (ix : t) : MetarData :=
  match ix !! key with Some (data, _) => data | None => emptyMetarData end.

Definition size (ix : t) : Z := Z.of_nat (base.size ix).

Definition isEmpty (ix : t) : bool :=
  match map_to_list ix with [] => true | _ :: _ => false end.

Section Nearest.

(** [Pos::distanceMeterTo]: the great-circle distance, left open. *)
Variable distanceMeterTo : Pos.t -> Pos.t -> F32.float.

(** The closer to [pos] of the entry kept so far and the next one; the
    entry kept stays on a tie. *)
Definition closer (pos : Pos.t) (entry : string * (MetarData * Pos.t))
    (best : option (string * (MetarData * Pos.t)))
  : option (string * (MetarData * Pos.t)) :=
  match best with
  | None => Some entry
  | Some b =>
      if F32.ltb (distanceMeterTo (snd (snd entry)) pos)
                 (distanceMeterTo (snd (snd b)) pos)
      then Some entry else Some b
  end.

Definition getNearest (pos : Pos.t) (ix : t) : option (string * (MetarData * Pos.t)) :=
  foldr (closer pos) None (map_to_list ix).

(** [getTypeOrNearest(data, key, pos)]: the key found and the value left
    in the reference parameter [data]. *)
Definition getTypeOrNearest (data : MetarData) (key : string) (pos : Pos.t) (ix : t)
  : string * MetarData :=
  match ix !! key with
  | Some (found, _) => (key, found)
  | None =>
      match getNearest pos ix with
      | Some (k, (found, _)) => (k, found)
      | None => (EmptyString, data)
      end
  end.

End Nearest.

End Index.

(** *** The regular expressions of [XpWeatherReader::read] *)

(** [IDENT_REGEXP], [^[A-Z0-9]{2,5}$]: two to five capitals or digits; the
    dollar also matches before a line feed that ends the text. *)
Definition allUpperOrDigit (s : string) : bool :=
  forallb QString.isUpperOrDigit (list_ascii_of_string s).

Definition dropFinalNewline (s : string) : string :=
  match rev (list_ascii_of_string s) with
  | c :: r => if Ascii.eqb c "010"%char then string_of_list_ascii (rev r) else s
  | [] => s
  end.

Definition matchesIdent (s : string) : bool :=
  let exact (u : string) :=
    allUpperOrDigit u && (2 <=? QString.size u) && (QString.size u <=? 5) in
  exact s || exact (dropFinalNewline s).

(** [DATE_REGEXP], [^[\d]{4}/[\d]{2}/[\d]{2}]: a match at the start of
    the text. *)
Definition matchesDate (s : string) : bool :=
  match list_ascii_of_string s with
  | y1 :: y2 :: y3 :: y4 :: s1 :: m1 :: m2 :: s2 :: d1 :: d2 :: _ =>
      forallb QString.isDigit [y1; y2; y3; y4; m1; m2; d1; d2]
      && Ascii.eqb s1 "/"%char && Ascii.eqb s2 "/"%char
  | _ => false
  end.

(** Warnings written with [qWarning]; the traces written with [qDebug] are
    not part of the model. *)
Inductive Warning : Type :=
| MetarDoesNotMatch (fileName : string) (lineNum : Z) (line : string)
| CannotOpen (fileName : string).

(** The signals of [XpWeatherReader]. *)
Inductive Signal : Type :=
| weatherUpdated.

(** *** [XpWeatherReader] *)

(** The members of the class; [fsWatcher] is [None] for a null pointer. *)
Record XpWeatherReader : Type := mkReader {
  index : Index.t;
  weatherFile : string;
  fsWatcher : option util.FileSystemWatcher.t
}.

(** The local variables of the loop of [read], with the warnings written
    so far.  [lineNum] is an [int] in the source and an integer without
    bound here: the two agree while fewer than 2147483647 lines have been
    counted, which the statements about the value of the number
    assume. *)
Record LoopState : Type := mkLoop {
  loopIndex : Index.t;
  lineNum : Z;
  lastTimestamp : QDateTime.t;
  warnings : list Warning
}.

Section Reader.

(** The callback [fetchAirportCoords], which resolves an identifier to a
    position, and [QDateTime::fromString(line, "yyyy/MM/dd hh:mm")]. *)
Variable fetchAirportCoords : string -> Pos.t.
Variable fromString : string -> QDateTime.t.
(** [Pos::distanceMeterTo] and the period of the watcher's fallback check. *)
Variable distanceMeterTo : Pos.t -> Pos.t -> F32.float.
Variable checkMs : Z.

(** One turn of the [while] loop of [XpWeatherReader::read] on the text
    [raw] given by [readLine()]. *)
Definition readLine (fileName : string) (st : LoopState) (raw : string) : LoopState :=
  let line := QString.trimmed raw in
  if QString.isEmpty line then st
  else if QString.size line >=? 4 then
    if matchesDate line then
      mkLoop (loopIndex st) (lineNum st) (fromString line) (warnings st)
    else
      let ident := QString.section_0_0 line in
      if matchesIdent ident then
        if Index.contains ident (loopIndex st)
           && QDateTime.gtb (timestamp (Index.value ident (loopIndex st)))
                            (lastTimestamp st)
        then st
        else
          let pos := fetchAirportCoords ident in
          if Pos.isValid pos then
            mkLoop (Index.insert ident (mkMetarData ident line (lastTimestamp st)) pos
                                 (loopIndex st))
                   (lineNum st + 1) (lastTimestamp st) (warnings st)
          else
            mkLoop (loopIndex st) (lineNum st + 1) (lastTimestamp st) (warnings st)
      else
        mkLoop (loopIndex st) (lineNum st + 1) (lastTimestamp st)
               (warnings st ++ [MetarDoesNotMatch fileName (lineNum st) line])
  else
    mkLoop (loopIndex st) (lineNum st + 1) (lastTimestamp st) (warnings st).

(** The state at the head of the loop: the index just cleared, line
    number one, no time stamp yet. *)
Definition loopStart (ix : Index.t) : LoopState :=
  mkLoop (Index.clear ix) 1 QDateTime.null [].

(** The whole loop over the lines that the stream delivers. *)
Definition readLines (fileName : string) (ls : list string) (st : LoopState) : LoopState :=
  fold_left (readLine fileName) ls st.

(** [XpWeatherReader::read]: the value returned, the object afterwards and
    the warnings written. *)
Definition read (fs : FileSystem.t) (r : XpWeatherReader)
  : bool * XpWeatherReader * list Warning :=
  match FileSystem.openText (fs (weatherFile r)) with
  | Some ls =>
      let st := readLines (weatherFile r) ls (loopStart (index r)) in
      (true, mkReader (loopIndex st) (weatherFile r) (fsWatcher r), warnings st)
  | None => (false, r, [CannotOpen (weatherFile r)])
  end.

(** [XpWeatherReader::deleteFsWatcher] *)
Definition deleteFsWatcher (r : XpWeatherReader) : XpWeatherReader :=
  mkReader (index r) (weatherFile r) None.

(** [XpWeatherReader::createFsWatcher] *)
Definition createFsWatcher (r : XpWeatherReader) : XpWeatherReader :=
  let w := match fsWatcher r with
           | Some w => w
           | None => util.FileSystemWatcher.create
           end in
  mkReader (index r) (weatherFile r)
           (Some (util.FileSystemWatcher.setFilenameAndStart checkMs (weatherFile r) w)).

(** [XpWeatherReader::clear] *)
Definition clear (r : XpWeatherReader) : XpWeatherReader :=
  let r' := deleteFsWatcher r in
  mkReader (Index.clear (index r')) EmptyString (fsWatcher r').

(** [XpWeatherReader::readWeatherFile]: the object afterwards, the
    warnings written and the signals emitted. *)
Definition readWeatherFile (fs : FileSystem.t) (file : string) (r : XpWeatherReader)
  : XpWeatherReader * list Warning * list Signal :=
  let r0 := clear r in
  let r1 := createFsWatcher (mkReader (index r0) file (fsWatcher r0)) in
  if FileSystem.exists_ (fs file) && FileSystem.isFile (fs file) then
    let '(_, r2, ws) := read fs r1 in (r2, ws, [])
  else (r1, [], []).

(** [XpWeatherReader::pathChanged], the slot connected to the signal
    [fileUpdated] of the watcher. *)
Definition pathChanged (fs : FileSystem.t) (filename : string) (r : XpWeatherReader)
  : XpWeatherReader * list Warning * list Signal :=
  if FileSystem.exists_ (fs (weatherFile r)) && FileSystem.isFile (fs (weatherFile r))
  then
    let '(ok, r', ws) := read fs r in
    (r', ws, if ok then [weatherUpdated] else [])
  else (r, [], []).

(** The connection made by [createFsWatcher]: the signal [fileUpdated] of
    the watcher calls the slot [pathChanged]. *)
Definition onWatcherSignal (fs : FileSystem.t) (s : util.FileSystemWatcher.Signal)
    (r : XpWeatherReader) : XpWeatherReader * list Warning * list Signal :=
  match s with
  | util.FileSystemWatcher.fileUpdated filename => pathChanged fs filename r
  end.

(** [XpWeatherReader::getXplaneMetar]; [now] is what
    [QDateTime::currentDateTime()] returns. *)
Definition getXplaneMetar (now : Z) (station : string) (pos : Pos.t) (r : XpWeatherReader)
  : MetarResult :=
  let '(foundKey, data) :=
    Index.getTypeOrNearest distanceMeterTo emptyMetarData station pos (index r) in
  let '(forStation, forNearest) :=
    if negb (QString.isEmpty foundKey) then
      if String.eqb foundKey station
      then (metar data, EmptyString)
      else (EmptyString, metar data)
    else (EmptyString, EmptyString) in
  mkMetarResult station pos forStation forNearest (Some now).

(** [XpWeatherReader::getMetar] *)
Definition getMetar (ident : string) (r : XpWeatherReader) : string :=
  metar (Index.value ident (index r)).

End Reader.

(** *** The reader together with the watcher it owns *)
Section System.

Variable fetchAirportCoords : string -> Pos.t.
Variable fromString : string -> QDateTime.t.
(** The constants of util/filesystemwatcher.h. *)
Variables (minFileSize delayMs checkMs : Z).

(** The signals that the watcher emits while it handles one event reach
    the slot of the reader one after the other. *)
Fixpoint deliver (fs : FileSystem.t) (sigs : list util.FileSystemWatcher.Signal)
    (r : XpWeatherReader) : XpWeatherReader * list Warning * list Signal :=
  match sigs with
  | [] => (r, [], [])
  | s :: sigs' =>
      let '(r1, ws1, out1) := onWatcherSignal fetchAirportCoords fromString fs s r in
      let '(r2, ws2, out2) := deliver fs sigs' r1 in
      (r2, ws1 ++ ws2, out1 ++ out2)
  end.

(** One event of the event loop while the file system is [fs]: a native
    change notification ([native]) or the passing of one millisecond.  It
    goes to the watcher, which looks at the file under its [filename]. *)
Definition step (fs : FileSystem.t) (native : bool) (r : XpWeatherReader)
  : XpWeatherReader * list Warning * list Signal :=
  match fsWatcher r with
  | None => (r, [], [])
  | Some w =>
      let f := fs (util.FileSystemWatcher.filename w) in
      let '(w', sigs) :=
        util.FileSystemWatcher.handle minFileSize delayMs checkMs
          (if native then util.FileSystemWatcher.Notified f
           else util.FileSystemWatcher.Elapsed f) w in
      deliver fs sigs (mkReader (index r) (weatherFile r) (Some w'))
  end.

(** The events of a list in turn. *)
Fixpoint steps (evs : list (FileSystem.t * bool)) (r : XpWeatherReader)
  : XpWeatherReader * list Warning * list Signal :=
  match evs with
  | [] => (r, [], [])
  | (fs, native) :: evs' =>
      let '(r1, ws1, out1) := step fs native r in
      let '(r2, ws2, out2) := steps evs' r1 in
      (r2, ws1 ++ ws2, out1 ++ out2)
  end.

End System.

End weather.

(** ** Namespace [atools::fs::bgl]: fs/bgl/recordtypes.cpp *)
Module bgl.

(** The enumerations of namespace [rec], declared in recordtypes.h: each
    type is given with the enumerators that the [switch] of its function
    names. *)
Module rec.

Inductive RecordType : Type :=
| AIRPORT
| WAYPOINT
| AIRPORTSUMMARY
| ILS_VOR
| NDB
| SCENERYOBJECT
| MARKER
| BOUNDARY
| GEOPOL
| NAMELIST
| VOR_ILS_ICAO_INDEX
| NDB_ICAO_INDEX
| WAYPOINT_ICAO_INDEX.

Inductive AirportRecordType : Type :=
| NAME
| TOWER_OBJ
| RUNWAY
| AIRPORT_WAYPOINT
| HELIPAD
| START
| COM
| DELETE_AIRPORT
| APRON_FIRST
| APRON_SECOND
| APRON_EDGE_LIGHTS
| TAXI_POINT
| TAXI_PARKING
| TAXI_PATH
| TAXI_NAME
| JETWAY
| APPROACH
| FENCE_BLAST
| FENCE_BOUNDARY
| UNKNOWN_REC.

Inductive RunwayRecordType : Type :=
| OFFSET_THRESHOLD_PRIM
| OFFSET_THRESHOLD_SEC
| BLAST_PAD_PRIM
| BLAST_PAD_SEC
| OVERRUN_PRIM
| OVERRUN_SEC
| VASI_PRIM_LEFT
| VASI_PRIM_RIGHT
| VASI_SEC_LEFT
| VASI_SEC_RIGHT
| APP_LIGHTS_PRIM
| APP_LIGHTS_SEC.

Inductive ApprRecordType : Type :=
| LEGS
| MISSED_LEGS
| TRANSITION
| TRANSITION_LEGS.

Inductive IlsVorRecordType : Type :=
| LOCALIZER
| GLIDESLOPE
| DME
| ILS_VOR_NAME.

Inductive NdbRecordType : Type :=
| NDB_NAME.

Inductive SceneryObjRecordType : Type :=
| SCENERYOBJECT_LIB_OBJECT
| SCENERYOBJECT_ATTACHED_OBJECT
| SCENERYOBJECT_EFFECT
| SCENERYOBJECT_GEN_BUILDING
| SCENERYOBJECT_WINDSOCK
| SCENERYOBJECT_EXT_BRIDGE
| SCENERYOBJECT_TRIGGER.

Inductive BoundaryRecordType : Type :=
| BOUNDARY_LINES.

(** What a parameter of an enumeration type [E] can hold: one of the
    enumerators that the [switch] names, or any other value of the type,
    told by its number ([other raw] stands for a value that is none of
    the enumerators named; the numbers are given in the header).  The
    cases of one [switch] carry different values, so two different
    enumerators named are two different values, and there are as many
    other values as numbers left: the functions are not one-to-one on
    them. *)
Inductive value (E : Type) : Type :=
| named (e : E)
| other (raw : Z).

Arguments named {E} e.
Arguments other {E} raw.

End rec.

(** [recordTypeStr]; the [return] after the [switch] serves every other value. *)
Definition recordTypeStr (type : rec.value rec.RecordType) : string :=
  match type with
  | rec.named rec.AIRPORT => "AIRPORT"
  | rec.named rec.WAYPOINT => "WAYPOINT"
  | rec.named rec.AIRPORTSUMMARY => "AIRPORTSUMMARY"
  | rec.named rec.ILS_VOR => "ILS_VOR"
  | rec.named rec.NDB => "NDB"
  | rec.named rec.SCENERYOBJECT => "SCENERYOBJECT"
  | rec.named rec.MARKER => "MARKER"
  | rec.named rec.BOUNDARY => "BOUNDARY"
  | rec.named rec.GEOPOL => "GEOPOL"
  | rec.named rec.NAMELIST => "NAMELIST"
  | rec.named rec.VOR_ILS_ICAO_INDEX => "VOR_ILS_ICAO_INDEX"
  | rec.named rec.NDB_ICAO_INDEX => "NDB_ICAO_INDEX"
  | rec.named rec.WAYPOINT_ICAO_INDEX => "WAYPOINT_ICAO_INDEX"
  | rec.other _ => EmptyString
  end%string.

(** [airportRecordTypeStr]; the [return] after the [switch] serves every other value. *)
Definition airportRecordTypeStr (type : rec.value rec.AirportRecordType) : string :=
  match type with
  | rec.named rec.NAME => "NAME"
  | rec.named rec.TOWER_OBJ => "TOWER_OBJ"
  | rec.named rec.RUNWAY => "RUNWAY"
  | rec.named rec.AIRPORT_WAYPOINT => "AIRPORT_WAYPOINT"
  | rec.named rec.HELIPAD => "HELIPAD"
  | rec.named rec.START => "START"
  | rec.named rec.COM => "COM"
  | rec.named rec.DELETE_AIRPORT => "DELETE_AIRPORT"
  | rec.named rec.APRON_FIRST => "APRON_FIRST"
  | rec.named rec.APRON_SECOND => "APRON_SECOND"
  | rec.named rec.APRON_EDGE_LIGHTS => "APRON_EDGE_LIGHTS"
  | rec.named rec.TAXI_POINT => "TAXI_POINT"
  | rec.named rec.TAXI_PARKING => "TAXI_PARKING"
  | rec.named rec.TAXI_PATH => "TAXI_PATH"
  | rec.named rec.TAXI_NAME => "TAXI_NAME"
  | rec.named rec.JETWAY => "JETWAY"
  | rec.named rec.APPROACH => "APPROACH"
  | rec.named rec.FENCE_BLAST => "FENCE_BLAST"
  | rec.named rec.FENCE_BOUNDARY => "FENCE_BOUNDARY"
  | rec.named rec.UNKNOWN_REC => "UNKNOWN_REC"
  | rec.other _ => EmptyString
  end%string.

(** [runwayRecordTypeStr]; the [return] after the [switch] serves every other value. *)
Definition runwayRecordTypeStr (type : rec.value rec.RunwayRecordType) : string :=
  match type with
  | rec.named rec.OFFSET_THRESHOLD_PRIM => "OFFSET_THRESHOLD_PRIM"
  | rec.named rec.OFFSET_THRESHOLD_SEC => "OFFSET_THRESHOLD_SEC"
  | rec.named rec.BLAST_PAD_PRIM => "BLAST_PAD_PRIM"
  | rec.named rec.BLAST_PAD_SEC => "BLAST_PAD_SEC"
  | rec.named rec.OVERRUN_PRIM => "OVERRUN_PRIM"
  | rec.named rec.OVERRUN_SEC => "OVERRUN_SEC"
  | rec.named rec.VASI_PRIM_LEFT => "VASI_PRIM_LEFT"
  | rec.named rec.VASI_PRIM_RIGHT => "VASI_PRIM_RIGHT"
  | rec.named rec.VASI_SEC_LEFT => "VASI_SEC_LEFT"
  | rec.named rec.VASI_SEC_RIGHT => "VASI_SEC_RIGHT"
  | rec.named rec.APP_LIGHTS_PRIM => "APP_LIGHTS_PRIM"
  | rec.named rec.APP_LIGHTS_SEC => "APP_LIGHTS_SEC"
  | rec.other _ => EmptyString
  end%string.

(** [approachRecordTypeStr]; the [return] after the [switch] serves every other value. *)
Definition approachRecordTypeStr (type : rec.value rec.ApprRecordType) : string :=
  match type with
  | rec.named rec.LEGS => "LEGS"
  | rec.named rec.MISSED_LEGS => "MISSED_LEGS"
  | rec.named rec.TRANSITION => "TRANS"
  | rec.named rec.TRANSITION_LEGS => "TRANS_LEGS"
  | rec.other _ => EmptyString
  end%string.

(** [ilsvorRecordTypeStr]; the [return] after the [switch] serves every other value. *)
Definition ilsvorRecordTypeStr (type : rec.value rec.IlsVorRecordType) : string :=
  match type with
  | rec.named rec.LOCALIZER => "LOCALIZER"
  | rec.named rec.GLIDESLOPE => "GLIDESLOPE"
  | rec.named rec.DME => "DME"
  | rec.named rec.ILS_VOR_NAME => "ILS_VOR_NAME"
  | rec.other _ => EmptyString
  end%string.

(** [ndbRecordTypeStr]; the [return] after the [switch] serves every other value. *)
Definition ndbRecordTypeStr (type : rec.value rec.NdbRecordType) : string :=
  match type with
  | rec.named rec.NDB_NAME => "NDB_NAME"
  | rec.other _ => EmptyString
  end%string.

(** [sceneryObjRecordTypeStr]; the [return] after the [switch] serves every other value. *)
Definition sceneryObjRecordTypeStr (type : rec.value rec.SceneryObjRecordType) : string :=
  match type with
  | rec.named rec.SCENERYOBJECT_LIB_OBJECT => "SCENERYOBJECT_LIB_OBJECT"
  | rec.named rec.SCENERYOBJECT_ATTACHED_OBJECT => "SCENERYOBJECT_ATTACHED_OBJECT"
  | rec.named rec.SCENERYOBJECT_EFFECT => "SCENERYOBJECT_EFFECT"
  | rec.named rec.SCENERYOBJECT_GEN_BUILDING => "SCENERYOBJECT_GEN_BUILDING"
  | rec.named rec.SCENERYOBJECT_WINDSOCK => "SCENERYOBJECT_WINDSOCK"
  | rec.named rec.SCENERYOBJECT_EXT_BRIDGE => "SCENERYOBJECT_EXT_BRIDGE"
  | rec.named rec.SCENERYOBJECT_TRIGGER => "SCENERYOBJECT_TRIGGER"
  | rec.other _ => EmptyString
  end%string.

(** [boundaryRecordTypeStr]; the [return] after the [switch] serves every other value. *)
Definition boundaryRecordTypeStr (type : rec.value rec.BoundaryRecordType) : string :=
  match type with
  | rec.named rec.BOUNDARY_LINES => "BOUNDARY_LINES"
  | rec.other _ => EmptyString
  end%string.

End bgl.

(** ** Notions used to state the properties *)
Module props.

Import geo weather.

(** The latitude test at the head of [Rect::overlaps]: one of the four
    ways in which the latitude ranges of two rectangles meet. *)
Definition latitudesMeet (a b : Rect.t) : bool :=
  let n := Rect.getNorth a in let s := Rect.getSouth a in
  let n2 := Rect.getNorth b in let s2 := Rect.getSouth b in
  (F32.geb n n2 && F32.leb s n2) || (F32.geb n2 n && F32.leb s2 n)
  || (F32.geb n s2 && F32.leb s s2) || (F32.geb n2 s && F32.leb s2 s).

(** How [XpWeatherReader::read] takes a line of the file. *)
Inductive LineKind : Type :=
| Blank
| Short
| DateHeader (line : string)
| Observation (ident line : string)
| Malformed (line : string).

Definition classify (raw : string) : LineKind :=
  let line := QString.trimmed raw in
  if QString.isEmpty line then Blank
  else if negb (QString.size line >=? 4) then Short
  else if matchesDate line then DateHeader line
  else if matchesIdent (QString.section_0_0 line)
       then Observation (QString.section_0_0 line) line
       else Malformed line.

Section Observations.

Variable fetchAirportCoords : string -> Pos.t.
Variable fromString : string -> QDateTime.t.

(** The observation lines of a file in their order, each as identifier,
    text and the time stamp of the date header above it; [ts] is the time
    stamp in force at the first line. *)
Fixpoint observations (ts : QDateTime.t) (ls : list string)
  : list (string * string * QDateTime.t) :=
  match ls with
  | [] => []
  | raw :: rest =>
      match classify raw with
      | DateHeader line => observations (fromString line) rest
      | Observation ident line => (ident, line, ts) :: observations ts rest
      | _ => observations ts rest
      end
  end.

(** What one observation line does to the index. *)
Definition applyObservation (ix : Index.t) (o : string * string * QDateTime.t) : Index.t :=
  let '(ident, line, ts) := o in
  if Index.contains ident ix && QDateTime.gtb (timestamp (Index.value ident ix)) ts
  then ix
  else if Pos.isValid (fetchAirportCoords ident)
       then Index.insert ident (mkMetarData ident line ts) (fetchAirportCoords ident) ix
       else ix.

(** What holds of every index that [read] builds: an entry is filed
    under the identifier of its observation, which has the form of an
    identifier, at the position that the lookup gives, which is valid, and
    its text is not empty. *)
Definition wellFormed (ix : Index.t) : Prop :=
  forall (key : string) (d : MetarData) (p : Pos.t),
    ix !! key = Some (d, p) ->
    ident d = key /\ p = fetchAirportCoords key /\ Pos.isValid p = true
    /\ matchesIdent key = true /\ QString.isEmpty (metar d) = false.

(** The states that an [XpWeatherReader] goes through: the one left by
    the constructor, and those left by its methods. *)
Inductive reachable (checkMs : Z) : XpWeatherReader -> Prop :=
| reach_new : reachable checkMs (mkReader ∅ EmptyString None)
| reach_clear r : reachable checkMs r -> reachable checkMs (clear r)
| reach_read fs r :
    reachable checkMs r ->
    reachable checkMs (snd (fst (read fetchAirportCoords fromString fs r)))
| reach_readWeatherFile fs file r :
    reachable checkMs r ->
    reachable checkMs
      (fst (fst (readWeatherFile fetchAirportCoords fromString checkMs fs file r)))
| reach_pathChanged fs filename r :
    reachable checkMs r ->
    reachable checkMs
      (fst (fst (pathChanged fetchAirportCoords fromString fs filename r))).

End Observations.

(** A burst of changes as the watcher sees it: each file state comes with
    a native notification and is followed by a number of milliseconds. *)
Definition burstEvents (burst : list (FileSystem.File * nat))
  : list util.FileSystemWatcher.Event :=
  flat_map (fun '(f, n) =>
              util.FileSystemWatcher.Notified f
              :: repeat (util.FileSystemWatcher.Elapsed f) n) burst.

(** Every state of the burst is usable and differs from what the watcher
    recorded at the one before, and less than [delayMs] milliseconds
    follow it. *)
Fixpoint burstDetected (minFileSize delayMs : Z) (ts : QDateTime.t) (sz : Z)
    (burst : list (FileSystem.File * nat)) : Prop :=
  match burst with
  | [] => True
  | (f, n) :: rest =>
      util.FileSystemWatcher.usable minFileSize f = true
      /\ (negb (QDateTime.isValid ts)
          || QDateTime.gtb (FileSystem.lastModified f) ts
          || negb (sz =? FileSystem.size f)) = true
      /\ Z.of_nat n < delayMs
      /\ burstDetected minFileSize delayMs
           (FileSystem.lastModified f) (FileSystem.size f) rest
  end.

(** The texts of the lines of a file that [read] takes as malformed. *)
Fixpoint malformed (ls : list string) : list string :=
  match ls with
  | [] => []
  | raw :: rest =>
      match classify raw with
      | Malformed line => line :: malformed rest
      | _ => malformed rest
      end
  end.

(** A name function tells the enumerators apart: two different
    enumerators have different names, no enumerator has the empty name,
    and every other value has the empty name. *)
Definition namesEnumerators {E : Type} (f : bgl.rec.value E -> string) : Prop :=
  (forall a b : E, a <> b -> f (bgl.rec.named a) <> f (bgl.rec.named b))
  /\ (forall a : E, f (bgl.rec.named a) <> EmptyString)
  /\ (forall raw : Z, f (bgl.rec.other raw) = EmptyString).

(** The largest value of the [int] that counts the lines in [read].  The
    loop state holds the counter as an integer without bound; as long as
    the counter stays at or under [INT_MAX] no [lineNum++] has wrapped
    and the integer is the value the program holds. *)
Definition INT_MAX : Z := 2147483647.

(** The event reaches the watcher while the path shows [f]. *)
Definition shows (f : FileSystem.File) (ev : util.FileSystemWatcher.Event) : Prop :=
  match ev with
  | util.FileSystemWatcher.Notified g | util.FileSystemWatcher.Elapsed g => g = f
  end.

(** One of the two timers of the watcher runs. *)
Definition polling (w : util.FileSystemWatcher.t) : bool :=
  util.QTimer.isActive (util.FileSystemWatcher.delayTimer w)
  || util.QTimer.isActive (util.FileSystemWatcher.periodicCheckTimer w).

(** No coordinate of the rectangle is NaN. *)
Definition numeric (r : Rect.t) : bool :=
  negb (F32.isNaN (Rect.getWest r)) && negb (F32.isNaN (Rect.getEast r))
  && negb (F32.isNaN (Rect.getNorth r)) && negb (F32.isNaN (Rect.getSouth r)).

End props.

(** ** Concrete data for the examples *)
Module sample.

Import geo weather.

Definition digit (c : ascii) : Z := Z.of_N (QString.code c) - 48.

Definition isLeap (y : Z) : bool :=
  ((y mod 4 =? 0) && negb (y mod 100 =? 0)) || (y mod 400 =? 0).

Definition daysInMonth (y m : Z) : Z :=
  if m =? 2 then (if isLeap y then 29 else 28)
  else if (m =? 4) || (m =? 6) || (m =? 9) || (m =? 11) then 30 else 31.

(** Days from 1970-01-01 to a date of the Gregorian calendar. *)
Definition daysFromCivil (y m d : Z) : Z :=
  let y' := if m <=? 2 then y - 1 else y in
  let era := y' / 400 in
  let yoe := y' - era * 400 in
  let doy := (153 * (if m >? 2 then m - 3 else m + 9) + 2) / 5 + d - 1 in
  let doe := yoe * 365 + yoe / 4 - yoe / 100 + doy in
  era * 146097 + doe - 719468.

(** A reading of [QDateTime::fromString(line, "yyyy/MM/dd hh:mm")] for the
    examples: the text is exactly a date and a time of day in that layout,
    taken as UTC, else the result is invalid. *)
Definition fromString (s : string) : QDateTime.t :=
  match list_ascii_of_string s with
  | [y1; y2; y3; y4; s1; m1; m2; s2; d1; d2; sp; h1; h2; co; n1; n2] =>
      if forallb QString.isDigit [y1; y2; y3; y4; m1; m2; d1; d2; h1; h2; n1; n2]
         && Ascii.eqb s1 "/"%char && Ascii.eqb s2 "/"%char && Ascii.eqb sp " "%char
         && Ascii.eqb co ":"%char
      then
        let y := digit y1 * 1000 + digit y2 * 100 + digit y3 * 10 + digit y4 in
        let m := digit m1 * 10 + digit m2 in
        let d := digit d1 * 10 + digit d2 in
        let h := digit h1 * 10 + digit h2 in
        let n := digit n1 * 10 + digit n2 in
        if (1 <=? y) && (1 <=? m) && (m <=? 12) && (1 <=? d)
           && (d <=? daysInMonth y m) && (h <=? 23) && (n <=? 59)
        then Some (((daysFromCivil y m d * 24 + h) * 60 + n) * 60000)
        else None
      else None
  | _ => None
  end.

(** A coordinate lookup that knows three airports. *)
Definition fetchAirportCoords (ident : string) : Pos.t :=
  if String.eqb ident "KHYI"%string then Pos.mk (F32.of_Z (-98)) (F32.of_Z 30)
  else if String.eqb ident "KPRO"%string then Pos.mk (F32.of_Z (-94)) (F32.of_Z 42)
  else if String.eqb ident "KADS"%string then Pos.mk (F32.of_Z (-97)) (F32.of_Z 33)
  else Pos.EMPTY_POS.

(** A stand-in for the great-circle distance. *)
Definition distanceMeterTo (a b : Pos.t) : F32.float :=
  F32.abs (F32.sub (Pos.lonX a) (Pos.lonX b)).

Definition path : string := "METAR.rwx"%string.

Definition khyi1845 : string := "KHYI 301845Z 13007KT 070V130 10SM SCT075 38/17 A2996"%string.
Definition khyi1855 : string := "KHYI 301855Z 14005KT 10SM CLR 37/17 A2996"%string.
Definition kpro1855 : string :=
  "KPRO 301855Z AUTO 11003KT 10SM CLR 26/14 A3022 RMK AO2 T02570135"%string.

(** The later report of KHYI comes first in the file... *)
Definition laterFirst : list string :=
  ["2017/07/30 18:55"%string; khyi1855; kpro1855; ""%string; "2017/07/30 18:45"%string; khyi1845].
(** ... and last. *)
Definition laterLast : list string :=
  ["2017/07/30 18:45"%string; khyi1845; ""%string; "2017/07/30 18:55"%string; khyi1855; kpro1855].

(** The file shown in the comment above [XpWeatherReader::read]. *)
Definition kads1847 : string := "KADS 301847Z 06005G14KT 13SM SKC 32/19 A3007"%string.
Definition threeBlocks : list string :=
  ["2017/07/30 18:45"%string; khyi1845; ""%string;
   "2017/07/30 18:55"%string; kpro1855; ""%string;
   "2017/07/30 18:47"%string; kads1847].

(** Two reports of KHYI under one date header. *)
Definition sameTime : list string :=
  ["2017/07/30 18:45"%string; khyi1845; khyi1855].

(** A regular file with the lines [ls], all of them readable. *)
Definition fileOf (ls : list string) : FileSystem.File :=
  FileSystem.mkFile true true 2000 (Some 1501440300000) true ls None.

(** A file system with [f] at [path] and nothing elsewhere. *)
Definition only (f : FileSystem.File) : FileSystem.t :=
  fun p => if String.eqb p path then f else FileSystem.missing.

(** A reader on [path] with an empty index, and one that has loaded the
    earlier report of KHYI. *)
Definition fresh : XpWeatherReader := mkReader ∅ path None.
Definition loaded : XpWeatherReader :=
  mkReader (Index.insert "KHYI"%string (mkMetarData "KHYI"%string khyi1845 (fromString "2017/07/30 18:45"%string))
                         (fetchAirportCoords "KHYI"%string) ∅)
           path None.

(** The file opens, and its device fails after the first line. *)
Definition failing : FileSystem.File :=
  FileSystem.mkFile true true 2000 (Some 1501440900000) true laterLast (Some 1%nat).

(** A file that cannot be opened. *)
Definition locked : FileSystem.File :=
  FileSystem.mkFile true true 2000 (Some 1501440900000) false laterLast None.

(** Two rectangles across the antimeridian, from longitude 170 to -170:
    one between the latitudes 0 and 10, one between 40 and 50. *)
Definition tropics : Rect.t :=
  Rect.make (F32.of_Z 170) (F32.of_Z 10) (F32.of_Z (-170)) (F32.of_Z 0).
Definition north : Rect.t :=
  Rect.make (F32.of_Z 170) (F32.of_Z 50) (F32.of_Z (-170)) (F32.of_Z 40).

(** A watcher on [path] that has recorded the file [fileOf laterLast] and
    polls every ten seconds. *)
Definition settled : util.FileSystemWatcher.t :=
  util.FileSystemWatcher.mk path (Some 1501440300000) 2000
    (util.QTimer.mk true 1000 None) (util.QTimer.mk false 10000 (Some 10000))
    true true.

(** A rectangle that does not cross the antimeridian, and one that meets
    it in a corner. *)
Definition texas : Rect.t :=
  Rect.make (F32.of_Z (-107)) (F32.of_Z 37) (F32.of_Z (-93)) (F32.of_Z 25).
Definition gulf : Rect.t :=
  Rect.make (F32.of_Z (-98)) (F32.of_Z 30) (F32.of_Z (-80)) (F32.of_Z 18).

End sample.

(** * Properties *)

(** ** Geometry *)
Section GeoFacts.

Import geo.

(** The rounding of a sum or difference does not look at the sign. *)
Lemma SFabs_binary_round_aux (sx sy : bool) (mx ex : Z) (lx : location) :
  SFabs (binary_round_aux F32.prec F32.emax sx mx ex lx)
  = SFabs (binary_round_aux F32.prec F32.emax sy mx ex lx).
Proof.
  unfold binary_round_aux.
  destruct (shr_fexp F32.prec F32.emax mx ex lx) as [mrs' e'].
  destruct (shr_fexp F32.prec F32.emax _ e' loc_Exact) as [mrs'' e''].
  destruct (shr_m mrs''); [reflexivity | | reflexivity].
  destruct (Z.leb e'' (Z.sub F32.emax F32.prec)); reflexivity.
Qed.

Lemma SFabs_binary_normalize_opp (m e : Z) :
  SFabs (binary_normalize F32.prec F32.emax (- m) e false)
  = SFabs (binary_normalize F32.prec F32.emax m e false).
Proof.
  destruct m as [|p|p]; simpl; [reflexivity | |];
    unfold binary_round;
    destruct (shl_align p e _) as [mz ez]; apply SFabs_binary_round_aux.
Qed.

(** [|a - b|] and [|b - a|] are the same [float]. *)
Lemma abs_sub_comm (a b : F32.float) :
  F32.abs (F32.sub a b) = F32.abs (F32.sub b a).
Proof.
  unfold F32.abs, F32.sub.
  destruct a as [sa|sa| |sa ma ea], b as [sb|sb| |sb mb eb];
    try reflexivity;
    try (destruct sa, sb; reflexivity);
    try (destruct sa; reflexivity);
    try (destruct sb; reflexivity).
  unfold SFsub. rewrite (Z.min_comm eb ea).
  rewrite <- SFabs_binary_normalize_opp. f_equal. f_equal. lia.
Qed.

Lemma almostEqual_comm (a b : F32.float) : almostEqual a b = almostEqual b a.
Proof. unfold almostEqual. now rewrite abs_sub_comm. Qed.

Lemma Pos_eqb_comm (a b : Pos.t) : Pos.eqb a b = Pos.eqb b a.
Proof.
  unfold Pos.eqb.
  now rewrite (almostEqual_comm (Pos.lonX a)), (almostEqual_comm (Pos.latY a)).
Qed.

Lemma Rect_eqb_comm (a b : Rect.t) : Rect.eqb a b = Rect.eqb b a.
Proof.
  unfold Rect.eqb.
  now rewrite (Pos_eqb_comm (Rect.topLeft a)), (Pos_eqb_comm (Rect.bottomRight a)).
Qed.

Lemma latitudesMeet_comm (a b : Rect.t) :
  props.latitudesMeet a b = props.latitudesMeet b a.
Proof.
  unfold props.latitudesMeet, F32.geb, F32.leb.
  destruct (SFleb (Rect.getNorth b) (Rect.getNorth a)),
           (SFleb (Rect.getSouth a) (Rect.getNorth b)),
           (SFleb (Rect.getNorth a) (Rect.getNorth b)),
           (SFleb (Rect.getSouth b) (Rect.getNorth a)),
           (SFleb (Rect.getSouth b) (Rect.getSouth a)),
           (SFleb (Rect.getSouth a) (Rect.getSouth b)); reflexivity.
Qed.

(** [overlaps] with its latitude test folded into [latitudesMeet]. *)
Lemma overlaps_unfold (eps : F32.float) (a b : Rect.t) :
  Rect.overlaps eps a b =
  if negb (Rect.isValid a) || negb (Rect.isValid b) then false
  else if Rect.isPoint a eps && Rect.isPoint b eps then Rect.eqb a b
  else if props.latitudesMeet a b then
    match Rect.crossesAntiMeridian a, Rect.crossesAntiMeridian b with
    | true, true => true
    | true, false =>
        F32.leb (Rect.getWest b) (Rect.getEast a)
        || F32.geb (Rect.getEast b) (Rect.getWest a)
    | false, true =>
        F32.leb (Rect.getWest a) (Rect.getEast b)
        || F32.geb (Rect.getEast a) (Rect.getWest b)
    | false, false =>
        (F32.geb (Rect.getEast a) (Rect.getEast b)
         && F32.leb (Rect.getWest a) (Rect.getEast b))
        || (F32.geb (Rect.getEast b) (Rect.getEast a)
            && F32.leb (Rect.getWest b) (Rect.getEast a))
        || (F32.geb (Rect.getEast a) (Rect.getWest b)
            && F32.leb (Rect.getWest a) (Rect.getWest b))
        || (F32.geb (Rect.getEast b) (Rect.getWest a)
            && F32.leb (Rect.getWest b) (Rect.getWest a))
    end
  else false.
Proof.
  unfold Rect.overlaps, props.latitudesMeet. cbv zeta.
  destruct (negb (Rect.isValid a) || negb (Rect.isValid b)); [reflexivity|].
  destruct (Rect.isPoint a eps && Rect.isPoint b eps); [reflexivity|].
  match goal with |- (if ?c then _ else _) = _ => destruct c end; [|reflexivity].
  destruct (Rect.crossesAntiMeridian a), (Rect.crossesAntiMeridian b); simpl;
    try reflexivity;
    match goal with |- (if ?c then true else false) = _ => destruct c; reflexivity end.
Qed.

End GeoFacts.

Section GeoClaims.

Import geo.

Lemma inside_make (w n e s lon lat : F32.float) :
  Rect.inside (Rect.make w n e s) (Pos.mk lon lat)
  = F32.leb w lon && F32.leb lon e && F32.leb lat n && F32.leb s lat.
Proof. reflexivity. Qed.

(** The rectangle from longitude 170 eastwards to -170, between the
    latitudes [s] and [n]. *)
Lemma split_170 (n s : F32.float) :
  Rect.isValid (Rect.make (F32.of_Z 170) n (F32.of_Z (-170)) s) = true ->
  Rect.splitAtAntiMeridian (Rect.make (F32.of_Z 170) n (F32.of_Z (-170)) s)
  = [ Rect.make (F32.of_Z 170) n (F32.of_Z 180) s;
      Rect.make (F32.of_Z (-180)) n (F32.of_Z (-170)) s ].
Proof.
  intros Hv. unfold Rect.splitAtAntiMeridian. rewrite Hv. reflexivity.
Qed.

(** C3. The rectangle with west edge 170 and east edge -170 contains the
    positions at longitude 175 and at longitude -175 whose latitude lies
    in its latitude span, and no position at longitude 0.  In general
    [contains] holds exactly of the positions that lie, edges included, in
    one of the at most two rectangles into which [splitAtAntiMeridian]
    cuts the rectangle. *)
Theorem contains_antimeridian :
  (forall n s lat : F32.float,
      Rect.isValid (Rect.make (F32.of_Z 170) n (F32.of_Z (-170)) s) = true ->
      F32.leb s lat = true -> F32.leb lat n = true ->
      Rect.contains (Rect.make (F32.of_Z 170) n (F32.of_Z (-170)) s)
                    (Pos.mk (F32.of_Z 175) lat) = true
      /\ Rect.contains (Rect.make (F32.of_Z 170) n (F32.of_Z (-170)) s)
                       (Pos.mk (F32.of_Z (-175)) lat) = true)
  /\ (forall n s lat : F32.float,
         Rect.contains (Rect.make (F32.of_Z 170) n (F32.of_Z (-170)) s)
                       (Pos.mk (F32.of_Z 0) lat) = false)
  /\ (forall (r : Rect.t) (pos : Pos.t),
         (length (Rect.splitAtAntiMeridian r) <= 2)%nat
         /\ (Rect.contains r pos = true <->
             exists part : Rect.t,
               In part (Rect.splitAtAntiMeridian r)
               /\ F32.leb (Rect.getWest part) (Pos.lonX pos) = true
               /\ F32.leb (Pos.lonX pos) (Rect.getEast part) = true
               /\ F32.leb (Rect.getSouth part) (Pos.latY pos) = true
               /\ F32.leb (Pos.latY pos) (Rect.getNorth part) = true)).
Proof.
  split; [|split].
  - intros n s lat Hv Hs Hn.
    unfold Rect.contains. rewrite Hv, (split_170 n s Hv). cbn [orb existsb].
    rewrite !inside_make, Hs, Hn.
    split; reflexivity.
  - intros n s lat. unfold Rect.contains.
    destruct (Rect.isValid (Rect.make (F32.of_Z 170) n (F32.of_Z (-170)) s)) eqn:Hv.
    + rewrite (split_170 n s Hv). cbn [orb existsb].
      rewrite !inside_make. reflexivity.
    + unfold Rect.splitAtAntiMeridian. rewrite Hv.
      destruct (Pos.isValid _); reflexivity.
  - intros r pos. split.
    + unfold Rect.splitAtAntiMeridian.
      destruct (Rect.isValid r); [destruct (Rect.crossesAntiMeridian r)|]; simpl; lia.
    + assert (Hin : forall part, Rect.inside part pos = true <->
                F32.leb (Rect.getWest part) (Pos.lonX pos) = true
                /\ F32.leb (Pos.lonX pos) (Rect.getEast part) = true
                /\ F32.leb (Rect.getSouth part) (Pos.latY pos) = true
                /\ F32.leb (Pos.latY pos) (Rect.getNorth part) = true).
      { intros part. unfold Rect.inside, F32.geb.
        rewrite !andb_true_iff. tauto. }
      unfold Rect.contains. split.
      * destruct (Rect.isValid r || Pos.isValid pos); [|discriminate].
        intros H. apply existsb_exists in H as [part [H1 H2]].
        exists part. split; [exact H1|]. now apply Hin.
      * intros [part [H1 H2]].
        assert (Hv : Rect.isValid r = true).
        { unfold Rect.splitAtAntiMeridian in H1.
          destruct (Rect.isValid r); [reflexivity | destruct H1]. }
        rewrite Hv. cbn [orb]. apply existsb_exists.
        exists part. split; [exact H1|]. now apply Hin.
Qed.

(** At latitude 5, between the latitudes 0 and 10. *)
Lemma contains_antimeridian_witness :
  Rect.contains sample.tropics (Pos.mk (F32.of_Z 175) (F32.of_Z 5)) = true
  /\ Rect.contains sample.tropics (Pos.mk (F32.of_Z (-175)) (F32.of_Z 5)) = true.
Proof.
  apply (proj1 contains_antimeridian (F32.of_Z 10) (F32.of_Z 0) (F32.of_Z 5));
    reflexivity.
Defined.

(** C5. [overlaps] gives the same answer with its two rectangles
    exchanged, whatever they are. *)
Theorem overlaps_symmetric (defaultEpsilon : F32.float) (a b : Rect.t) :
  Rect.overlaps defaultEpsilon a b = Rect.overlaps defaultEpsilon b a.
Proof.
  rewrite !overlaps_unfold.
  rewrite (orb_comm (negb (Rect.isValid b))).
  rewrite (andb_comm (Rect.isPoint b defaultEpsilon)).
  rewrite (Rect_eqb_comm b a), (latitudesMeet_comm b a).
  destruct (negb (Rect.isValid a) || negb (Rect.isValid b)); [reflexivity|].
  destruct (Rect.isPoint a defaultEpsilon && Rect.isPoint b defaultEpsilon);
    [reflexivity|].
  destruct (props.latitudesMeet a b); [|reflexivity].
  destruct (Rect.crossesAntiMeridian a), (Rect.crossesAntiMeridian b);
    try reflexivity.
  unfold F32.geb, F32.leb.
  destruct (SFleb (Rect.getEast b) (Rect.getEast a)),
           (SFleb (Rect.getWest a) (Rect.getEast b)),
           (SFleb (Rect.getEast a) (Rect.getEast b)),
           (SFleb (Rect.getWest b) (Rect.getEast a)),
           (SFleb (Rect.getWest b) (Rect.getWest a)),
           (SFleb (Rect.getWest a) (Rect.getWest b)); reflexivity.
Qed.

(** C6, as the code has it.  Two valid rectangles that both cross the
    antimeridian and are not both single points overlap exactly when
    their latitude ranges meet. *)
Theorem overlaps_both_crossing (defaultEpsilon : F32.float) (a b : Rect.t) :
  Rect.isValid a = true -> Rect.isValid b = true ->
  Rect.crossesAntiMeridian a = true -> Rect.crossesAntiMeridian b = true ->
  Rect.isPoint a defaultEpsilon && Rect.isPoint b defaultEpsilon = false ->
  Rect.overlaps defaultEpsilon a b = props.latitudesMeet a b.
Proof.
  intros Ha Hb Hca Hcb Hp.
  rewrite overlaps_unfold, Ha, Hb, Hp, Hca, Hcb. cbn [negb orb].
  destruct (props.latitudesMeet a b); reflexivity.
Qed.

(** The rectangle between the latitudes 0 and 10 against itself moved to
    the latitudes 5 to 15. *)
Lemma overlaps_both_crossing_witness :
  Rect.overlaps F32.epsilon sample.tropics
    (Rect.make (F32.of_Z 170) (F32.of_Z 15) (F32.of_Z (-170)) (F32.of_Z 5))
  = props.latitudesMeet sample.tropics
      (Rect.make (F32.of_Z 170) (F32.of_Z 15) (F32.of_Z (-170)) (F32.of_Z 5))
  /\ props.latitudesMeet sample.tropics
       (Rect.make (F32.of_Z 170) (F32.of_Z 15) (F32.of_Z (-170)) (F32.of_Z 5))
     = true.
Proof.
  split; [apply overlaps_both_crossing; reflexivity | reflexivity].
Defined.

(** C6 as stated fails: two valid rectangles that both cross the
    antimeridian, at latitudes 0 to 10 and 40 to 50, do not overlap,
    whether the tolerance of [isPoint] is the [float] epsilon, zero or a
    thousand degrees. *)
Lemma overlaps_both_crossing_counterexample :
  Rect.isValid sample.tropics = true
  /\ Rect.isValid sample.north = true
  /\ Rect.crossesAntiMeridian sample.tropics = true
  /\ Rect.crossesAntiMeridian sample.north = true
  /\ Rect.overlaps F32.epsilon sample.tropics sample.north = false
  /\ Rect.overlaps (F32.of_Z 0) sample.tropics sample.north = false
  /\ Rect.overlaps (F32.of_Z 1000) sample.tropics sample.north = false.
Proof. repeat split; reflexivity. Qed.

End GeoClaims.

(** ** The file change monitor *)
Section WatcherFacts.

Import util util.FileSystemWatcher.

Variables (minFileSize delayMs checkMs : Z).

Local Abbreviation run := (FileSystemWatcher.run minFileSize delayMs checkMs).
Local Abbreviation handle := (FileSystemWatcher.handle minFileSize delayMs checkMs).
Local Abbreviation pathOrFileChanged :=
  (FileSystemWatcher.pathOrFileChanged minFileSize delayMs checkMs).

Lemma run_app (evs1 evs2 : list Event) (w : t) :
  run (evs1 ++ evs2) w =
  let '(w1, s1) := run evs1 w in
  let '(w2, s2) := run evs2 w1 in (w2, s1 ++ s2).
Proof.
  revert w. induction evs1 as [|ev evs1 IH]; intros w; simpl.
  - destruct (run evs2 w); reflexivity.
  - destruct (handle ev w) as [w1 s1]. rewrite IH.
    destruct (run evs1 w1) as [w2 s2], (run evs2 w2) as [w3 s3].
    now rewrite app_assoc.
Qed.

(** While the delay timer has more milliseconds left than pass, and the
    periodic timer is stopped, nothing happens but the count-down. *)
Lemma run_wait (n : nat) (f : FileSystem.File) (fn : string) (ts : QDateTime.t)
    (sz : Z) (ss : bool) (iv d : Z) (p : QTimer.t) (pc wt : bool) :
  QTimer.remaining p = None ->
  Z.of_nat n < d ->
  run (repeat (Elapsed f) n) (mk fn ts sz (QTimer.mk ss iv (Some d)) p pc wt)
  = (mk fn ts sz (QTimer.mk ss iv (Some (d - Z.of_nat n))) p pc wt, []).
Proof.
  intros Hp. revert d. induction n as [|n IH]; intros d Hd.
  - simpl. now replace (d - Z.of_nat 0) with d by lia.
  - cbn [repeat FileSystemWatcher.run].
    assert (H1 : (d <=? 1) = false) by lia.
    unfold FileSystemWatcher.handle, QTimer.elapse. cbn [delayTimer periodicCheckTimer QTimer.remaining].
    rewrite H1, Hp. cbn -[Z.sub Z.of_nat].
    rewrite IH by lia.
    now replace (d - 1 - Z.of_nat n) with (d - Z.of_nat (S n)) by lia.
Qed.

(** The millisecond at which a single-shot delay timer runs out, the
    periodic timer being stopped. *)
Lemma run_fire (f : FileSystem.File) (fn : string) (ts : QDateTime.t)
    (sz : Z) (iv : Z) (p : QTimer.t) (pc wt : bool) :
  QTimer.remaining p = None ->
  handle (Elapsed f) (mk fn ts sz (QTimer.mk true iv (Some 1)) p pc wt)
  = (mk fn ts sz (QTimer.mk true iv None) (QTimer.start checkMs p) pc wt,
     [fileUpdated fn]).
Proof.
  intros Hp. unfold FileSystemWatcher.handle, QTimer.elapse.
  cbn [delayTimer periodicCheckTimer QTimer.remaining].
  rewrite Hp. reflexivity.
Qed.

(** A change that is detected: the state recorded, the delay timer started
    anew, the periodic timer stopped, no signal. *)
Lemma pathOrFileChanged_detected (f : FileSystem.File) (w : t) :
  usable minFileSize f = true -> differs f w = true ->
  pathOrFileChanged f w
  = (mk (filename w) (FileSystem.lastModified f) (FileSystem.size f)
        (QTimer.mk (QTimer.singleShot (delayTimer w)) delayMs (Some delayMs))
        (QTimer.stop (periodicCheckTimer w)) (periodicConnected w) (watching w),
     []).
Proof.
  intros Hu Hd. unfold FileSystemWatcher.pathOrFileChanged. now rewrite Hu, Hd.
Qed.

(** A last detected change followed by [delayMs] milliseconds. *)
Lemma run_last (f : FileSystem.File) (w : t) :
  watching w = true ->
  QTimer.singleShot (delayTimer w) = true ->
  usable minFileSize f = true -> differs f w = true ->
  0 < delayMs ->
  run (Notified f :: repeat (Elapsed f) (Z.to_nat delayMs)) w
  = (mk (filename w) (FileSystem.lastModified f) (FileSystem.size f)
        (QTimer.mk true delayMs None)
        (QTimer.start checkMs (QTimer.stop (periodicCheckTimer w)))
        (periodicConnected w) (watching w),
     [fileUpdated (filename w)]).
Proof.
  intros Hw Hss Hu Hd Hpos.
  cbn [FileSystemWatcher.run FileSystemWatcher.handle]. rewrite Hw.
  rewrite (pathOrFileChanged_detected f w Hu Hd), Hss.
  replace (Z.to_nat delayMs) with (Z.to_nat (delayMs - 1) + 1)%nat by lia.
  rewrite repeat_app, run_app, run_wait by (reflexivity || lia).
  replace (delayMs - Z.of_nat (Z.to_nat (delayMs - 1))) with 1 by lia.
  cbn [repeat FileSystemWatcher.run].
  rewrite run_fire by reflexivity. cbn [app]. now rewrite Hw.
Qed.

(** A burst of detected changes, each less than [delayMs] after the one
    before, and then [delayMs] quiet milliseconds: one signal. *)
Lemma run_burst (burst : list (FileSystem.File * nat)) (last : FileSystem.File) (w : t) :
  watching w = true ->
  QTimer.singleShot (delayTimer w) = true ->
  props.burstDetected minFileSize delayMs (fileTimestamp w) (lastFileSize w)
    (burst ++ [(last, 0%nat)]) ->
  exists w',
    run (props.burstEvents burst
           ++ Notified last :: repeat (Elapsed last) (Z.to_nat delayMs)) w
    = (w', [fileUpdated (filename w)])
    /\ QTimer.remaining (delayTimer w') = None
    /\ QTimer.remaining (periodicCheckTimer w') = Some checkMs.
Proof.
  revert w. induction burst as [|[f n] burst IH]; intros w Hw Hss Hb.
  - destruct Hb as (Hu & Hd & Hpos & _).
    eexists. split; [apply run_last; auto|]. split; reflexivity.
  - destruct Hb as (Hu & Hd & Hn & Hb).
    cbn [props.burstEvents flat_map app].
    rewrite <- app_assoc.
    cbn [FileSystemWatcher.run FileSystemWatcher.handle]. rewrite Hw.
    rewrite (pathOrFileChanged_detected f w Hu Hd), Hss.
    rewrite run_app, run_wait by (reflexivity || lia).
    match goal with
    | |- context [FileSystemWatcher.run _ _ _ ?evs ?w1] =>
        destruct (IH w1) as (w' & Hrun & H1 & H2); [exact Hw | reflexivity | exact Hb |]
    end.
    fold (props.burstEvents burst). rewrite Hrun.
    exists w'. split; [reflexivity|]. split; assumption.
Qed.

(** A file that is not usable, or is as recorded, starts the periodic
    timer and leaves the record and the delay timer alone. *)
Lemma pathOrFileChanged_same (f : FileSystem.File) (w : t) :
  usable minFileSize f = false \/ differs f w = false ->
  pathOrFileChanged f w
  = (mk (filename w) (fileTimestamp w) (lastFileSize w) (delayTimer w)
        (QTimer.start checkMs (QTimer.stop (periodicCheckTimer w)))
        (periodicConnected w) (watching w), []).
Proof.
  intros H. unfold FileSystemWatcher.pathOrFileChanged.
  destruct (usable minFileSize f); [|reflexivity].
  destruct H as [H|H]; [discriminate H | now rewrite H].
Qed.

Lemma handle_same (f : FileSystem.File) (ev : Event) (w : t) :
  props.shows f ev ->
  usable minFileSize f = false \/ differs f w = false ->
  QTimer.remaining (delayTimer w) = None ->
  snd (handle ev w) = []
  /\ filename (fst (handle ev w)) = filename w
  /\ fileTimestamp (fst (handle ev w)) = fileTimestamp w
  /\ lastFileSize (fst (handle ev w)) = lastFileSize w
  /\ QTimer.remaining (delayTimer (fst (handle ev w))) = None.
Proof.
  intros Hev Hf Hd. destruct ev as [g|g]; cbn in Hev; subst g.
  - cbn [FileSystemWatcher.handle].
    destruct (watching w); [rewrite (pathOrFileChanged_same f w Hf)|];
      cbn; repeat split; try reflexivity; exact Hd.
  - assert (He : QTimer.elapse (delayTimer w) = (delayTimer w, false))
      by (unfold QTimer.elapse; now rewrite Hd).
    cbn [FileSystemWatcher.handle]. rewrite He.
    destruct (QTimer.elapse (periodicCheckTimer w)) as [p out].
    cbn [periodicConnected].
    destruct (out && _); [rewrite pathOrFileChanged_same by exact Hf|];
      cbn; repeat split; try reflexivity; exact Hd.
Qed.

Lemma run_same (f : FileSystem.File) (evs : list Event) (w : t) :
  Forall (props.shows f) evs ->
  usable minFileSize f = false \/ differs f w = false ->
  QTimer.remaining (delayTimer w) = None ->
  snd (run evs w) = []
  /\ fileTimestamp (fst (run evs w)) = fileTimestamp w
  /\ lastFileSize (fst (run evs w)) = lastFileSize w
  /\ QTimer.remaining (delayTimer (fst (run evs w))) = None.
Proof.
  intros Hevs. revert w. induction Hevs as [|ev evs Hev _ IH]; intros w Hf Hd.
  - auto.
  - cbn [FileSystemWatcher.run].
    destruct (handle_same f ev w Hev Hf Hd) as (Hs & _ & Hts & Hsz & Hd').
    destruct (handle ev w) as [w1 s1]. cbn [fst snd] in *.
    destruct (IH w1) as (Hs2 & Hts2 & Hsz2 & Hd2); [|exact Hd'|].
    + destruct Hf as [Hf|Hf]; [now left | right].
      unfold differs in *. now rewrite Hts, Hsz.
    + destruct (run evs w1) as [w2 s2]. cbn [fst snd] in *.
      subst s1 s2. repeat split; congruence.
Qed.

End WatcherFacts.

(** C9. A change detected by [pathOrFileChanged] starts the single-shot
    delay timer anew, whatever was left on it, and emits nothing; when the
    delay timer runs out, [fileUpdatedDelayed] emits one [fileUpdated] with
    the watched path and starts the periodic timer, and nothing else
    changes; a file that is missing, not a regular file or not larger than
    [minFileSize] gives no signal and starts the periodic timer instead:
    the delay timer and the record are left as they are, so that, the
    delay timer being stopped, no event ever follows while the file stays
    so.  Hence a burst of detected changes, each less than [delayMs] after
    the one before, followed by [delayMs] quiet milliseconds, gives
    exactly one [fileUpdated]. *)
Theorem watcher_debounce (minFileSize delayMs checkMs : Z) :
  (forall (f : FileSystem.File) (w : util.FileSystemWatcher.t),
      util.FileSystemWatcher.usable minFileSize f = true ->
      util.FileSystemWatcher.differs f w = true ->
      let r := util.FileSystemWatcher.pathOrFileChanged minFileSize delayMs checkMs f w in
      snd r = []
      /\ util.FileSystemWatcher.delayTimer (fst r)
         = util.QTimer.start delayMs (util.FileSystemWatcher.delayTimer w)
      /\ util.QTimer.remaining (util.FileSystemWatcher.delayTimer (fst r))
         = Some delayMs
      /\ fst r
         = util.FileSystemWatcher.mk (util.FileSystemWatcher.filename w)
             (FileSystem.lastModified f) (FileSystem.size f)
             (util.QTimer.start delayMs (util.FileSystemWatcher.delayTimer w))
             (util.QTimer.stop (util.FileSystemWatcher.periodicCheckTimer w))
             (util.FileSystemWatcher.periodicConnected w)
             (util.FileSystemWatcher.watching w))
  /\ (forall w : util.FileSystemWatcher.t,
         let r := util.FileSystemWatcher.fileUpdatedDelayed checkMs w in
         snd r = [util.FileSystemWatcher.fileUpdated (util.FileSystemWatcher.filename w)]
         /\ util.QTimer.remaining (util.FileSystemWatcher.periodicCheckTimer (fst r))
            = Some checkMs
         /\ fst r
            = util.FileSystemWatcher.mk (util.FileSystemWatcher.filename w)
                (util.FileSystemWatcher.fileTimestamp w)
                (util.FileSystemWatcher.lastFileSize w)
                (util.FileSystemWatcher.delayTimer w)
                (util.QTimer.start checkMs (util.FileSystemWatcher.periodicCheckTimer w))
                (util.FileSystemWatcher.periodicConnected w)
                (util.FileSystemWatcher.watching w))
  /\ (forall (f : FileSystem.File) (w : util.FileSystemWatcher.t),
         FileSystem.exists_ f = false \/ FileSystem.isFile f = false
         \/ FileSystem.size f <= minFileSize ->
         let r := util.FileSystemWatcher.pathOrFileChanged minFileSize delayMs checkMs f w in
         snd r = []
         /\ util.QTimer.remaining (util.FileSystemWatcher.periodicCheckTimer (fst r))
            = Some checkMs
         /\ util.FileSystemWatcher.delayTimer (fst r) = util.FileSystemWatcher.delayTimer w
         /\ fst r
            = util.FileSystemWatcher.mk (util.FileSystemWatcher.filename w)
                (util.FileSystemWatcher.fileTimestamp w)
                (util.FileSystemWatcher.lastFileSize w)
                (util.FileSystemWatcher.delayTimer w)
                (util.QTimer.start checkMs
                   (util.QTimer.stop (util.FileSystemWatcher.periodicCheckTimer w)))
                (util.FileSystemWatcher.periodicConnected w)
                (util.FileSystemWatcher.watching w)
         /\ (util.QTimer.remaining (util.FileSystemWatcher.delayTimer w) = None ->
             forall evs : list util.FileSystemWatcher.Event,
               Forall (props.shows f) evs ->
               snd (util.FileSystemWatcher.run minFileSize delayMs checkMs evs w) = []
               /\ util.QTimer.remaining
                    (util.FileSystemWatcher.delayTimer
                       (fst (util.FileSystemWatcher.run minFileSize delayMs checkMs evs w)))
                  = None))
  /\ (forall (burst : list (FileSystem.File * nat)) (last : FileSystem.File)
             (w : util.FileSystemWatcher.t),
         util.FileSystemWatcher.watching w = true ->
         util.QTimer.singleShot (util.FileSystemWatcher.delayTimer w) = true ->
         props.burstDetected minFileSize delayMs
           (util.FileSystemWatcher.fileTimestamp w)
           (util.FileSystemWatcher.lastFileSize w) (burst ++ [(last, 0%nat)]) ->
         exists w' : util.FileSystemWatcher.t,
           util.FileSystemWatcher.run minFileSize delayMs checkMs
             (props.burstEvents burst
                ++ util.FileSystemWatcher.Notified last
                   :: repeat (util.FileSystemWatcher.Elapsed last) (Z.to_nat delayMs)) w
           = (w', [util.FileSystemWatcher.fileUpdated (util.FileSystemWatcher.filename w)])
           /\ util.QTimer.remaining (util.FileSystemWatcher.delayTimer w') = None
           /\ util.QTimer.remaining (util.FileSystemWatcher.periodicCheckTimer w')
              = Some checkMs).
Proof.
  split; [|split; [|split]].
  - intros f w Hu Hd.
    rewrite (pathOrFileChanged_detected minFileSize delayMs checkMs f w Hu Hd).
    repeat split.
  - intros w. repeat split.
  - intros f w H.
    assert (Hu : util.FileSystemWatcher.usable minFileSize f = false).
    { unfold util.FileSystemWatcher.usable.
      destruct H as [H | [H | H]]; rewrite ?H, ?andb_false_r; try reflexivity.
      apply andb_false_iff. right. lia. }
    cbn zeta.
    rewrite (pathOrFileChanged_same minFileSize delayMs checkMs f w (or_introl Hu)).
    repeat split.
    + now apply (run_same minFileSize delayMs checkMs f evs w); [|left|].
    + now apply (run_same minFileSize delayMs checkMs f evs w); [|left|].
  - apply run_burst.
Qed.

(** A file written three times, 400 and 700 milliseconds apart, seen by a
    watcher that was just started, with a delay of one second; and a
    watcher that polls and finds the file gone. *)
Lemma watcher_debounce_witness :
  (exists w' : util.FileSystemWatcher.t,
      util.FileSystemWatcher.run 100 1000 10000
        (props.burstEvents
           [(FileSystem.mkFile true true 500 (Some 1000) true [] None, 400%nat);
            (FileSystem.mkFile true true 900 (Some 1400) true [] None, 700%nat)]
         ++ util.FileSystemWatcher.Notified (sample.fileOf sample.laterLast)
            :: repeat (util.FileSystemWatcher.Elapsed (sample.fileOf sample.laterLast))
                      (Z.to_nat 1000))
        (util.FileSystemWatcher.setFilenameAndStart 10000 sample.path
           util.FileSystemWatcher.create)
      = (w', [util.FileSystemWatcher.fileUpdated sample.path])
      /\ util.QTimer.remaining (util.FileSystemWatcher.delayTimer w') = None
      /\ util.QTimer.remaining (util.FileSystemWatcher.periodicCheckTimer w')
         = Some 10000)
  /\ snd (util.FileSystemWatcher.pathOrFileChanged 100 1000 10000
            FileSystem.missing sample.settled) = []
  /\ util.FileSystemWatcher.delayTimer
       (fst (util.FileSystemWatcher.pathOrFileChanged 100 1000 10000
               FileSystem.missing sample.settled))
     = util.FileSystemWatcher.delayTimer sample.settled
  /\ snd (util.FileSystemWatcher.run 100 1000 10000
            [util.FileSystemWatcher.Notified FileSystem.missing;
             util.FileSystemWatcher.Elapsed FileSystem.missing] sample.settled) = [].
Proof.
  split.
  - apply (proj2 (proj2 (proj2 (watcher_debounce 100 1000 10000)))
             [(FileSystem.mkFile true true 500 (Some 1000) true [] None, 400%nat);
              (FileSystem.mkFile true true 900 (Some 1400) true [] None, 700%nat)]
             (sample.fileOf sample.laterLast)
             (util.FileSystemWatcher.setFilenameAndStart 10000 sample.path
                util.FileSystemWatcher.create)).
    + reflexivity.
    + reflexivity.
    + simpl. repeat split; lia.
  - destruct (proj1 (proj2 (proj2 (watcher_debounce 100 1000 10000)))
                FileSystem.missing sample.settled (or_introl eq_refl))
      as (H1 & _ & H3 & _ & H5).
    split; [exact H1|]. split; [exact H3|].
    apply (H5 eq_refl).
    repeat constructor.
Defined.

(** ** The reader *)

Lemma QDateTime_ltb_irrefl (a : QDateTime.t) : QDateTime.ltb a a = false.
Proof. destruct a; simpl; [lia | reflexivity]. Qed.


Lemma matchesIdent_nonempty (s : string) :
  weather.matchesIdent s = true -> s <> EmptyString.
Proof. intros H ->. discriminate H. Qed.

Section ReaderFacts.

Import geo weather.

Variable fetchAirportCoords : string -> Pos.t.
Variable fromString : string -> QDateTime.t.

Local Abbreviation readLine := (weather.readLine fetchAirportCoords fromString).
Local Abbreviation readLines := (weather.readLines fetchAirportCoords fromString).
Local Abbreviation read := (weather.read fetchAirportCoords fromString).
Local Abbreviation observations := (props.observations fromString).
Local Abbreviation applyObservation := (props.applyObservation fetchAirportCoords).

(** One turn of the loop, by the kind of the line. *)
Lemma readLine_classify (fileName : string) (st : LoopState) (raw : string) :
  readLine fileName st raw =
  match props.classify raw with
  | props.Blank => st
  | props.Short =>
      mkLoop (loopIndex st) (lineNum st + 1) (lastTimestamp st) (warnings st)
  | props.DateHeader line =>
      mkLoop (loopIndex st) (lineNum st) (fromString line) (warnings st)
  | props.Observation ident line =>
      if Index.contains ident (loopIndex st)
         && QDateTime.gtb (timestamp (Index.value ident (loopIndex st)))
                          (lastTimestamp st)
      then st
      else mkLoop (applyObservation (loopIndex st) (ident, line, lastTimestamp st))
                  (lineNum st + 1) (lastTimestamp st) (warnings st)
  | props.Malformed line =>
      mkLoop (loopIndex st) (lineNum st + 1) (lastTimestamp st)
             (warnings st ++ [MetarDoesNotMatch fileName (lineNum st) line])
  end.
Proof.
  unfold weather.readLine, props.classify, props.applyObservation.
  destruct (QString.isEmpty (QString.trimmed raw)); [reflexivity|].
  destruct (QString.size (QString.trimmed raw) >=? 4); [|reflexivity].
  cbn [negb].
  destruct (matchesDate (QString.trimmed raw)); [reflexivity|].
  destruct (matchesIdent (QString.section_0_0 (QString.trimmed raw))); [|reflexivity].
  destruct (Index.contains _ _ && QDateTime.gtb _ _); [reflexivity|].
  destruct (Pos.isValid _); reflexivity.
Qed.

Lemma applyObservation_skip (ix : Index.t) (ident line : string) (ts : QDateTime.t) :
  Index.contains ident ix && QDateTime.gtb (timestamp (Index.value ident ix)) ts = true ->
  applyObservation ix (ident, line, ts) = ix.
Proof. intros H. unfold props.applyObservation. now rewrite H. Qed.

(** The index at the end of the loop is the index at its start with the
    observation lines applied in their order. *)
Lemma loopIndex_readLines (fileName : string) (ls : list string) (st : LoopState) :
  loopIndex (readLines fileName ls st)
  = fold_left applyObservation (observations (lastTimestamp st) ls) (loopIndex st).
Proof.
  revert st. induction ls as [|raw ls IH]; intros st; [reflexivity|].
  unfold weather.readLines in *. cbn [fold_left props.observations].
  rewrite IH, readLine_classify.
  destruct (props.classify raw) as [| |line|ident line|line]; try reflexivity.
  cbn [fold_left].
  destruct (Index.contains _ _ && QDateTime.gtb _ _) eqn:Hskip.
  - now rewrite (applyObservation_skip _ _ _ _ Hskip).
  - reflexivity.
Qed.

(** What one observation does to the entry of its identifier... *)
Lemma applyObservation_same (ix : Index.t) (ident line : string) (ts : QDateTime.t) :
  applyObservation ix (ident, line, ts) !! ident =
  match ix !! ident with
  | Some (d, p) =>
      if QDateTime.gtb (timestamp d) ts then Some (d, p)
      else if Pos.isValid (fetchAirportCoords ident)
           then Some (mkMetarData ident line ts, fetchAirportCoords ident)
           else Some (d, p)
  | None =>
      if Pos.isValid (fetchAirportCoords ident)
      then Some (mkMetarData ident line ts, fetchAirportCoords ident)
      else None
  end.
Proof.
  unfold props.applyObservation, Index.contains, Index.value, Index.insert.
  destruct (ix !! ident) as [[d p]|] eqn:Hix; cbn [andb].
  - destruct (QDateTime.gtb (timestamp d) ts); [exact Hix|].
    destruct (Pos.isValid _); [apply lookup_insert_eq | exact Hix].
  - destruct (Pos.isValid _); [apply lookup_insert_eq | exact Hix].
Qed.

(** ... and to the entries of the others. *)
Lemma applyObservation_other (ix : Index.t) (ident line : string) (ts : QDateTime.t)
    (key : string) :
  ident <> key ->
  applyObservation ix (ident, line, ts) !! key = ix !! key.
Proof.
  intros Hne. unfold props.applyObservation, Index.insert.
  destruct (Index.contains _ _ && QDateTime.gtb _ _); [reflexivity|].
  destruct (Pos.isValid _); [now apply lookup_insert_ne | reflexivity].
Qed.


End ReaderFacts.

Section ReaderInvariant.

Import geo weather.

Variable fetchAirportCoords : string -> Pos.t.
Variable fromString : string -> QDateTime.t.

Local Abbreviation readLines := (weather.readLines fetchAirportCoords fromString).
Local Abbreviation read := (weather.read fetchAirportCoords fromString).
Local Abbreviation observations := (props.observations fromString).
Local Abbreviation applyObservation := (props.applyObservation fetchAirportCoords).
Local Abbreviation wellFormed := (props.wellFormed fetchAirportCoords).

Lemma classify_Observation (raw ident line : string) :
  props.classify raw = props.Observation ident line ->
  line = QString.trimmed raw /\ ident = QString.section_0_0 line
  /\ QString.isEmpty line = false /\ matchesIdent ident = true.
Proof.
  unfold props.classify.
  destruct (QString.isEmpty (QString.trimmed raw)) eqn:He; [discriminate|].
  destruct (negb _); [discriminate|].
  destruct (matchesDate _); [discriminate|].
  destruct (matchesIdent _) eqn:Hm; [|discriminate].
  intros [= <- <-]. auto.
Qed.

Lemma observations_shape (ls : list string) (ts : QDateTime.t)
    (ident line : string) (t : QDateTime.t) :
  In (ident, line, t) (observations ts ls) ->
  matchesIdent ident = true /\ QString.isEmpty line = false.
Proof.
  revert ts. induction ls as [|raw ls IH]; intros ts; [intros []|].
  cbn [props.observations].
  destruct (props.classify raw) as [| |l|i l|l] eqn:Hc; try apply IH.
  intros [[= -> -> ->]|H]; [|now apply IH in H].
  apply classify_Observation in Hc. tauto.
Qed.

Lemma wellFormed_empty : wellFormed ∅.
Proof. intros key d p H. now rewrite lookup_empty in H. Qed.

Lemma wellFormed_applyObservation (ix : Index.t) (ident line : string) (ts : QDateTime.t) :
  wellFormed ix -> matchesIdent ident = true -> QString.isEmpty line = false ->
  wellFormed (applyObservation ix (ident, line, ts)).
Proof.
  intros Hwf Hm Hl key d p.
  destruct (decide (ident = key)) as [<-|Hne].
  - rewrite applyObservation_same.
    destruct (ix !! ident) as [[d0 p0]|] eqn:E.
    + destruct (QDateTime.gtb _ _); [intros [= <- <-]; now apply Hwf|].
      destruct (Pos.isValid (fetchAirportCoords ident)) eqn:Hv;
        intros [= <- <-]; [auto | now apply Hwf].
    + destruct (Pos.isValid (fetchAirportCoords ident)) eqn:Hv;
        [intros [= <- <-]; auto | discriminate].
  - rewrite applyObservation_other by exact Hne. apply Hwf.
Qed.

Lemma wellFormed_fold (obs : list (string * string * QDateTime.t)) (ix : Index.t) :
  wellFormed ix ->
  (forall ident line t, In (ident, line, t) obs ->
     matchesIdent ident = true /\ QString.isEmpty line = false) ->
  wellFormed (fold_left applyObservation obs ix).
Proof.
  revert ix. induction obs as [|[[i l] t] obs IH]; intros ix Hwf Hobs; [exact Hwf|].
  cbn [fold_left]. apply IH.
  - destruct (Hobs i l t (or_introl eq_refl)). now apply wellFormed_applyObservation.
  - intros ident line t' H. apply (Hobs ident line t'). now right.
Qed.

(** The loop keeps the index well formed. *)
Lemma wellFormed_readLines (fileName : string) (ls : list string) (st : LoopState) :
  wellFormed (loopIndex st) -> wellFormed (loopIndex (readLines fileName ls st)).
Proof.
  intros Hwf. rewrite loopIndex_readLines. apply wellFormed_fold; [exact Hwf|].
  intros ident line t. apply observations_shape.
Qed.

Lemma wellFormed_read (fs : FileSystem.t) (r : XpWeatherReader) :
  wellFormed (index r) -> wellFormed (index (snd (fst (read fs r)))).
Proof.
  intros Hwf. unfold weather.read.
  destruct (FileSystem.openText _); [|exact Hwf].
  cbn [fst snd index]. apply wellFormed_readLines. apply wellFormed_empty.
Qed.

(** Every state of the reader has a well-formed index. *)
Lemma wellFormed_reachable (checkMs : Z) (r : XpWeatherReader) :
  props.reachable fetchAirportCoords fromString checkMs r -> wellFormed (index r).
Proof.
  induction 1 as [|r _ _|fs r _ IH|fs file r _ _|fs filename r _ IH].
  - apply wellFormed_empty.
  - apply wellFormed_empty.
  - now apply wellFormed_read.
  - unfold weather.readWeatherFile.
    destruct (FileSystem.exists_ (fs file) && FileSystem.isFile (fs file)).
    + match goal with
      | |- context [weather.read _ _ fs ?r1] =>
          pose proof (wellFormed_read fs r1 wellFormed_empty) as H;
          destruct (weather.read fetchAirportCoords fromString fs r1) as [[ok r2] ws]
      end.
      exact H.
    + apply wellFormed_empty.
  - unfold weather.pathChanged.
    destruct (FileSystem.exists_ _ && FileSystem.isFile _); [|exact IH].
    pose proof (wellFormed_read fs r IH) as H.
    destruct (weather.read fetchAirportCoords fromString fs r) as [[ok r2] ws].
    exact H.
Qed.

(** The warnings written are never taken back. *)
Lemma warnings_readLines (fileName : string) (ls : list string) (st : LoopState) :
  exists more, warnings (readLines fileName ls st) = warnings st ++ more.
Proof.
  revert st. induction ls as [|raw ls IH]; intros st.
  - exists []. now rewrite app_nil_r.
  - unfold weather.readLines in *. cbn [fold_left].
    destruct (IH (weather.readLine fetchAirportCoords fromString fileName st raw))
      as [more ->].
    rewrite readLine_classify.
    destruct (props.classify raw); try (now exists more).
    + destruct (Index.contains _ _ && QDateTime.gtb _ _); now exists more.
    + cbn [warnings]. rewrite <- app_assoc. eauto.
Qed.

End ReaderInvariant.

Section ReaderClaims.

Import geo weather.

Variable fetchAirportCoords : string -> Pos.t.
Variable fromString : string -> QDateTime.t.

Local Abbreviation readLine := (weather.readLine fetchAirportCoords fromString).
Local Abbreviation readLines := (weather.readLines fetchAirportCoords fromString).
Local Abbreviation read := (weather.read fetchAirportCoords fromString).
Local Abbreviation observations := (props.observations fromString).


(** C10. An observation line of a station that has an entry already is
    skipped when the time stamp of the entry is strictly later than the
    time stamp in force, and only then; otherwise, and so when the two
    are equal or both unset, the line takes the place of the entry. *)
Theorem duplicate_station_tie_break (fileName : string) (before : list string)
    (ix0 : Index.t) (raw ident line : string) (data : MetarData) (pos : Pos.t) :
  let st := readLines fileName before (loopStart ix0) in
  props.classify raw = props.Observation ident line ->
  loopIndex st !! ident = Some (data, pos) ->
  (QDateTime.gtb (timestamp data) (lastTimestamp st) = true ->
   readLine fileName st raw = st)
  /\ (QDateTime.gtb (timestamp data) (lastTimestamp st) = false ->
      loopIndex (readLine fileName st raw) !! ident
      = Some (mkMetarData ident line (lastTimestamp st), fetchAirportCoords ident))
  /\ (timestamp data = lastTimestamp st ->
      loopIndex (readLine fileName st raw) !! ident
      = Some (mkMetarData ident line (lastTimestamp st), fetchAirportCoords ident)).
Proof.
  intros st Hc Hix.
  assert (Hwf : props.wellFormed fetchAirportCoords (loopIndex st)).
  { apply wellFormed_readLines, wellFormed_empty. }
  destruct (Hwf ident data pos Hix) as (_ & Hpos & Hvalid & _).
  assert (Hnew : QDateTime.gtb (timestamp data) (lastTimestamp st) = false ->
                 loopIndex (readLine fileName st raw) !! ident
                 = Some (mkMetarData ident line (lastTimestamp st),
                         fetchAirportCoords ident)).
  { intros G. rewrite readLine_classify, Hc.
    unfold Index.contains, Index.value. rewrite Hix, G. cbn [andb loopIndex].
    rewrite applyObservation_same, Hix, G. now rewrite <- Hpos, Hvalid. }
  split; [|split].
  - intros G. rewrite readLine_classify, Hc.
    unfold Index.contains, Index.value. now rewrite Hix, G.
  - exact Hnew.
  - intros Heq. apply Hnew. rewrite Heq. apply QDateTime_ltb_irrefl.
Qed.

(** C2, as the code has it.  [read] returns false exactly when the file
    cannot be opened, and then leaves the object as it was; once the file
    is open the index is cleared and [read] returns true, with the index
    built from the lines that the stream delivered and from nothing
    else. *)
Theorem read_fails_only_on_open (fs : FileSystem.t) (r : XpWeatherReader) :
  fst (fst (read fs r)) = FileSystem.canOpen (fs (weatherFile r))
  /\ (FileSystem.canOpen (fs (weatherFile r)) = false ->
      read fs r = (false, r, [CannotOpen (weatherFile r)]))
  /\ (FileSystem.canOpen (fs (weatherFile r)) = true ->
      index (snd (fst (read fs r)))
      = loopIndex (readLines (weatherFile r) (FileSystem.delivered (fs (weatherFile r)))
                             (loopStart ∅))).
Proof.
  unfold weather.read, FileSystem.openText.
  destruct (FileSystem.canOpen (fs (weatherFile r))); repeat split; discriminate.
Qed.

(** C7. When the watcher signals that the file was updated, the reader
    emits [weatherUpdated] exactly when the file exists, is a regular file
    and the read that follows succeeds, and it then holds what was read;
    [readWeatherFile], which does the first load, emits nothing. *)
Theorem update_notification (checkMs : Z) (fs : FileSystem.t) (name : string)
    (r : XpWeatherReader) :
  snd (onWatcherSignal fetchAirportCoords fromString fs
         (util.FileSystemWatcher.fileUpdated name) r)
  = (if FileSystem.exists_ (fs (weatherFile r)) && FileSystem.isFile (fs (weatherFile r))
        && fst (fst (read fs r))
     then [weatherUpdated] else [])
  /\ fst (fst (onWatcherSignal fetchAirportCoords fromString fs
                 (util.FileSystemWatcher.fileUpdated name) r))
     = (if FileSystem.exists_ (fs (weatherFile r)) && FileSystem.isFile (fs (weatherFile r))
        then snd (fst (read fs r)) else r)
  /\ snd (readWeatherFile fetchAirportCoords fromString checkMs fs name r) = [].
Proof.
  unfold weather.onWatcherSignal, weather.pathChanged, weather.readWeatherFile.
  repeat split.
  - destruct (FileSystem.exists_ _ && FileSystem.isFile _); [|reflexivity].
    destruct (read fs r) as [[[] r'] ws]; reflexivity.
  - destruct (FileSystem.exists_ _ && FileSystem.isFile _); [|reflexivity].
    destruct (read fs r) as [[ok r'] ws]; reflexivity.
  - destruct (FileSystem.exists_ _ && FileSystem.isFile _); [|reflexivity].
    match goal with |- context [weather.read _ _ fs ?r1] =>
      destruct (weather.read fetchAirportCoords fromString fs r1) as [[ok r'] ws] end.
    reflexivity.
Qed.

(** C8, as the code has it.  A line that, white space at its ends apart,
    has at least four characters and matches neither the date pattern nor,
    with its first token, the identifier pattern, gives one warning with
    the name of the file and the text of the line, leaves the index as it
    is, and the lines after it are read as usual; the warning is among
    those of the whole loop.  A line of one to three characters gives no
    warning and changes nothing but the line count. *)
Theorem malformed_line_logged (fileName : string) (st : LoopState)
    (before after : list string) (raw : string) :
  let line := QString.trimmed raw in
  QString.isEmpty line = false ->
  (4 <= QString.size line ->
   matchesDate line = false ->
   matchesIdent (QString.section_0_0 line) = false ->
   let st1 := readLines fileName before st in
   (exists n : Z,
       warnings (readLine fileName st1 raw)
       = warnings st1 ++ [MetarDoesNotMatch fileName n line]
       /\ In (MetarDoesNotMatch fileName n line)
             (warnings (readLines fileName (before ++ raw :: after) st)))
   /\ loopIndex (readLine fileName st1 raw) = loopIndex st1
   /\ lastTimestamp (readLine fileName st1 raw) = lastTimestamp st1
   /\ readLines fileName (before ++ raw :: after) st
      = readLines fileName after (readLine fileName st1 raw))
  /\ (QString.size line < 4 ->
      readLine fileName st raw
      = mkLoop (loopIndex st) (lineNum st + 1) (lastTimestamp st) (warnings st)).
Proof.
  intros line Hne. split.
  - intros Hsize Hdate Hident st1.
    assert (Hc : props.classify raw = props.Malformed line).
    { unfold props.classify. fold line. rewrite Hne, Hdate, Hident.
      replace (QString.size line >=? 4) with true by lia. reflexivity. }
    assert (Hrun : readLines fileName (before ++ raw :: after) st
                   = readLines fileName after (readLine fileName st1 raw)).
    { unfold weather.readLines. now rewrite fold_left_app. }
    repeat split; try (rewrite readLine_classify, Hc; reflexivity); [|exact Hrun].
    exists (lineNum st1). split.
    + rewrite readLine_classify, Hc. reflexivity.
    + rewrite Hrun.
      destruct (warnings_readLines fetchAirportCoords fromString fileName after
                  (readLine fileName st1 raw)) as [more ->].
      rewrite readLine_classify, Hc. cbn [warnings].
      apply in_or_app. left. apply in_or_app. right. now left.
  - intros Hsize. unfold weather.readLine. fold line. rewrite Hne.
    replace (QString.size line >=? 4) with false by lia. reflexivity.
Qed.

End ReaderClaims.

Section ReaderExamples.

Import geo weather.

Local Abbreviation read := (weather.read sample.fetchAirportCoords sample.fromString).
Local Abbreviation readLine := (weather.readLine sample.fetchAirportCoords sample.fromString).
Local Abbreviation readLines := (weather.readLines sample.fetchAirportCoords sample.fromString).


(** Two reports of KHYI under one date header, and two under none: the
    second takes the place of the first. *)
Lemma duplicate_station_tie_break_witness :
  loopIndex (readLine sample.path
               (readLines sample.path ["2017/07/30 18:45"%string; sample.khyi1845]
                          (loopStart ∅))
               sample.khyi1855) !! "KHYI"%string
  = Some (mkMetarData "KHYI" sample.khyi1855 (Some 1501440300000),
          sample.fetchAirportCoords "KHYI")
  /\ loopIndex (readLine sample.path
                  (readLines sample.path [sample.khyi1845] (loopStart ∅))
                  sample.khyi1855) !! "KHYI"%string
     = Some (mkMetarData "KHYI" sample.khyi1855 None,
             sample.fetchAirportCoords "KHYI").
Proof.
  split.
  - apply (proj2 (proj2 (duplicate_station_tie_break
             sample.fetchAirportCoords sample.fromString sample.path
             ["2017/07/30 18:45"%string; sample.khyi1845] ∅
             sample.khyi1855 "KHYI" sample.khyi1855
             (mkMetarData "KHYI" sample.khyi1845 (Some 1501440300000))
             (sample.fetchAirportCoords "KHYI")
             eq_refl eq_refl))).
    reflexivity.
  - apply (proj2 (proj2 (duplicate_station_tie_break
             sample.fetchAirportCoords sample.fromString sample.path
             [sample.khyi1845] ∅
             sample.khyi1855 "KHYI" sample.khyi1855
             (mkMetarData "KHYI" sample.khyi1845 None)
             (sample.fetchAirportCoords "KHYI")
             eq_refl eq_refl))).
    reflexivity.
Defined.

(** C2 as stated fails: the file opens and its device fails after the
    first line; [read] returns true, and the report of KHYI that the
    index held is gone. *)
Lemma read_failure_counterexample :
  FileSystem.failsAfter (sample.only sample.failing sample.path) = Some 1%nat
  /\ index sample.loaded !! "KHYI"%string
     = Some (mkMetarData "KHYI" sample.khyi1845 (Some 1501440300000),
             sample.fetchAirportCoords "KHYI")
  /\ fst (fst (read (sample.only sample.failing) sample.loaded)) = true
  /\ index (snd (fst (read (sample.only sample.failing) sample.loaded)))
       !! "KHYI"%string = None.
Proof. repeat split; reflexivity. Qed.

(** A file that cannot be opened leaves the loaded index alone, and one
    that opens replaces it. *)
Lemma read_fails_only_on_open_witness :
  read (sample.only sample.locked) sample.loaded
  = (false, sample.loaded, [CannotOpen sample.path])
  /\ index (snd (fst (read (sample.only (sample.fileOf sample.laterLast)) sample.loaded)))
     = loopIndex (readLines sample.path sample.laterLast (loopStart ∅)).
Proof.
  split.
  - apply (proj1 (proj2 (read_fails_only_on_open
             sample.fetchAirportCoords sample.fromString
             (sample.only sample.locked) sample.loaded))).
    reflexivity.
  - apply (proj2 (proj2 (read_fails_only_on_open
             sample.fetchAirportCoords sample.fromString
             (sample.only (sample.fileOf sample.laterLast)) sample.loaded))).
    reflexivity.
Defined.

(** C8 as stated fails: the line [abc] is not blank and matches neither
    pattern, and reading a file that holds it writes no warning. *)
Lemma malformed_line_counterexample :
  QString.isEmpty (QString.trimmed "abc") = false
  /\ matchesDate (QString.trimmed "abc") = false
  /\ matchesIdent (QString.section_0_0 (QString.trimmed "abc")) = false
  /\ read (sample.only (sample.fileOf ["abc"%string])) sample.fresh
     = (true, sample.fresh, []).
Proof. repeat split; reflexivity. Qed.

(** The line [hello world] between the lines of a file. *)
Lemma malformed_line_logged_witness :
  (exists n : Z,
      warnings (readLine sample.path
                  (readLines sample.path ["2017/07/30 18:45"%string; sample.khyi1845]
                             (loopStart ∅))
                  "  hello world ")
      = [MetarDoesNotMatch sample.path n "hello world"]
      /\ In (MetarDoesNotMatch sample.path n "hello world")
            (warnings (readLines sample.path
                         (["2017/07/30 18:45"%string; sample.khyi1845]
                            ++ "  hello world "%string :: [sample.kpro1855])
                         (loopStart ∅))))
  /\ readLine sample.path (loopStart ∅) " ab "
     = mkLoop ∅ 2 None [].
Proof.
  pose proof (malformed_line_logged sample.fetchAirportCoords sample.fromString
                sample.path (loopStart ∅)
                ["2017/07/30 18:45"%string; sample.khyi1845] [sample.kpro1855]
                "  hello world " eq_refl) as [H _].
  pose proof (malformed_line_logged sample.fetchAirportCoords sample.fromString
                sample.path (loopStart ∅) [] [] " ab " eq_refl) as [_ H'].
  split.
  - apply H; [vm_compute; discriminate | reflexivity | reflexivity].
  - apply H'. reflexivity.
Defined.

(** The file of the comment above [read]: three stations are loaded and
    nothing is written to the log. *)
Example read_threeBlocks :
  let r := snd (fst (read (sample.only (sample.fileOf sample.threeBlocks)) sample.fresh)) in
  read (sample.only (sample.fileOf sample.threeBlocks)) sample.fresh = (true, r, [])
  /\ Index.size (index r) = 3
  /\ getMetar "KHYI" r = sample.khyi1845
  /\ getMetar "KPRO" r = sample.kpro1855
  /\ getMetar "KADS" r = sample.kads1847
  /\ getMetar "ZZZZ" r = EmptyString.
Proof. repeat split; reflexivity. Qed.

(** A station that is not in the index is answered with the nearest one,
    as a nearest match. *)
Example query_nearest :
  let r := snd (fst (read (sample.only (sample.fileOf sample.threeBlocks)) sample.fresh)) in
  getXplaneMetar sample.distanceMeterTo 1501441000000 "ZZZZ"
    (Pos.mk (F32.of_Z (-97)) (F32.of_Z 33)) r
  = mkMetarResult "ZZZZ" (Pos.mk (F32.of_Z (-97)) (F32.of_Z 33))
      EmptyString sample.kads1847 (Some 1501441000000).
Proof. reflexivity. Qed.

(** The number written with a warning counts the turns of the loop that
    reached its end: a line that is the fourth of its file is logged with
    the number two. *)
Example warning_number_is_a_count :
  warnings (readLines sample.path
              ["2017/07/30 18:45"%string; sample.khyi1845; ""%string;
               "hello world"%string]
              (loopStart ∅))
  = [MetarDoesNotMatch sample.path 2 "hello world"].
Proof. reflexivity. Qed.

End ReaderExamples.

(** ** The station query *)

(** C4. For a station that the index of the reader holds, the query gives
    the observation of that station as the exact match, with a text that
    is not empty, and leaves the nearest match empty, at whatever position
    it is made; for this it is enough that the index, however it was
    filled, holds the station under an identifier that is not empty.
    Every result carries the identifier and the position asked for and the
    time of the query. *)
Theorem station_query_exact (fetchAirportCoords : string -> geo.Pos.t)
    (fromString : string -> QDateTime.t)
    (distanceMeterTo : geo.Pos.t -> geo.Pos.t -> F32.float) (checkMs : Z) :
  (forall (r : weather.XpWeatherReader) (station : string) (pos : geo.Pos.t)
          (now : Z) (data : weather.MetarData) (p : geo.Pos.t),
      props.reachable fetchAirportCoords fromString checkMs r ->
      weather.index r !! station = Some (data, p) ->
      weather.getXplaneMetar distanceMeterTo now station pos r
      = weather.mkMetarResult station pos (weather.metar data) EmptyString (Some now)
      /\ weather.metar data <> EmptyString
      /\ geo.Pos.isValid p = true)
  /\ (forall (r : weather.XpWeatherReader) (station : string) (pos : geo.Pos.t)
             (now : Z) (data : weather.MetarData) (p : geo.Pos.t),
         weather.index r !! station = Some (data, p) ->
         station <> EmptyString ->
         weather.getXplaneMetar distanceMeterTo now station pos r
         = weather.mkMetarResult station pos (weather.metar data) EmptyString (Some now))
  /\ (forall (r : weather.XpWeatherReader) (station : string) (pos : geo.Pos.t)
             (now : Z),
         weather.requestIdent (weather.getXplaneMetar distanceMeterTo now station pos r)
         = station
         /\ weather.requestPos (weather.getXplaneMetar distanceMeterTo now station pos r)
            = pos
         /\ weather.resultTimestamp
              (weather.getXplaneMetar distanceMeterTo now station pos r)
            = Some now).
Proof.
  assert (Hexact : forall r station pos now data p,
             weather.index r !! station = Some (data, p) ->
             station <> EmptyString ->
             weather.getXplaneMetar distanceMeterTo now station pos r
             = weather.mkMetarResult station pos (weather.metar data) EmptyString
                 (Some now)).
  { intros r station pos now data p Hix Hne.
    unfold weather.getXplaneMetar, weather.Index.getTypeOrNearest.
    rewrite Hix, String.eqb_refl.
    destruct station; [now destruct Hne | reflexivity]. }
  split; [|split; [exact Hexact|]].
  - intros r station pos now data p Hreach Hix.
    destruct (wellFormed_reachable _ _ _ _ Hreach station data p Hix)
      as (_ & _ & Hvalid & Hm & Hne).
    split; [|split; [|exact Hvalid]].
    + apply (Hexact r station pos now data p Hix).
      now apply matchesIdent_nonempty.
    + intros E. now rewrite E in Hne.
  - intros r station pos now. unfold weather.getXplaneMetar.
    destruct (weather.Index.getTypeOrNearest _ _ _ _ _) as [foundKey data].
    destruct (negb _); [destruct (String.eqb _ _)|]; repeat split.
Qed.

(** KHYI asked for from longitude 0, latitude 0, after the file was
    loaded. *)
Lemma station_query_exact_witness :
  weather.getXplaneMetar sample.distanceMeterTo 1501441000000 "KHYI"
    (geo.Pos.mk (F32.of_Z 0) (F32.of_Z 0))
    (fst (fst (weather.readWeatherFile sample.fetchAirportCoords sample.fromString 10000
                 (sample.only (sample.fileOf sample.laterLast)) sample.path
                 (weather.mkReader ∅ EmptyString None))))
  = weather.mkMetarResult "KHYI" (geo.Pos.mk (F32.of_Z 0) (F32.of_Z 0))
      sample.khyi1855 EmptyString (Some 1501441000000).
Proof.
  apply (proj1 (station_query_exact sample.fetchAirportCoords sample.fromString
                  sample.distanceMeterTo 10000)
           _ "KHYI"%string _ _
           (weather.mkMetarData "KHYI" sample.khyi1855 (Some 1501440900000))
           (sample.fetchAirportCoords "KHYI")).
  - apply props.reach_readWeatherFile, props.reach_new.
  - reflexivity.
Defined.

(** * Further properties *)

(** ** The order of [float] *)

Lemma SFcompare_antisym (a b : F32.float) :
  SFcompare b a = option_map CompOpp (SFcompare a b).
Proof.
  destruct a as [sa|sa| |sa ma ea], b as [sb|sb| |sb mb eb]; simpl;
    try reflexivity;
    try (destruct sa; reflexivity); try (destruct sb; reflexivity);
    try (destruct sa, sb; reflexivity).
  destruct sa, sb; try reflexivity; simpl;
    rewrite (Z.compare_antisym ea eb);
    destruct (ea ?= eb)%Z; simpl; try reflexivity;
    change (Pos.compare_cont Eq mb ma) with (Pos.compare mb ma);
    change (Pos.compare_cont Eq ma mb) with (Pos.compare ma mb);
    rewrite (Pos.compare_antisym ma mb); try reflexivity.
Qed.

Lemma SFltb_SFleb (a b : F32.float) : SFltb a b = true -> SFleb a b = true.
Proof. unfold SFltb, SFleb. now destruct (SFcompare a b) as [[]|]. Qed.

Lemma SFcompare_notNaN (a b : F32.float) :
  F32.isNaN a = false -> F32.isNaN b = false -> SFcompare a b <> None.
Proof.
  destruct a as [sa|sa| |sa ma ea], b as [sb|sb| |sb mb eb];
    simpl; intros Ha Hb; try discriminate.
Qed.

(** Without NaN, [a < b] is the negation of [b <= a]. *)
Lemma SFltb_negb_SFleb (a b : F32.float) :
  F32.isNaN a = false -> F32.isNaN b = false -> SFltb a b = negb (SFleb b a).
Proof.
  intros Ha Hb. pose proof (SFcompare_notNaN a b Ha Hb) as H.
  unfold SFltb, SFleb. rewrite (SFcompare_antisym a b).
  destruct (SFcompare a b) as [[]|]; try reflexivity. now destruct H.
Qed.

Lemma SFleb_total (a b : F32.float) :
  F32.isNaN a = false -> F32.isNaN b = false -> SFleb a b = false -> SFleb b a = true.
Proof.
  intros Ha Hb. pose proof (SFcompare_notNaN a b Ha Hb) as H.
  unfold SFleb. rewrite (SFcompare_antisym a b).
  destruct (SFcompare a b) as [[]|]; try reflexivity; try discriminate.
  now destruct H.
Qed.

Lemma SFleb_SFeqb (a b : F32.float) : SFleb a b && SFleb b a = SFeqb a b.
Proof.
  unfold SFleb, SFeqb. rewrite (SFcompare_antisym a b).
  now destruct (SFcompare a b) as [[]|].
Qed.

Lemma SFleb_trans (a b c : F32.float) :
  SFleb a b = true -> SFleb b c = true -> SFleb a c = true.
Proof.
  unfold SFleb.
  destruct a as [sa|sa| |sa ma ea], b as [sb|sb| |sb mb eb], c as [sc|sc| |sc mc ec];
    simpl; try discriminate; try reflexivity;
    try (destruct sa; simpl; try discriminate; try reflexivity);
    try (destruct sb; simpl; try discriminate; try reflexivity);
    try (destruct sc; simpl; try discriminate; try reflexivity).
  all: change (Pos.compare_cont Eq ma mb) with (Pos.compare ma mb);
       change (Pos.compare_cont Eq mb mc) with (Pos.compare mb mc);
       change (Pos.compare_cont Eq ma mc) with (Pos.compare ma mc);
       destruct (Z.compare_spec ea eb); simpl; try discriminate;
       destruct (Z.compare_spec eb ec); simpl; try discriminate;
       destruct (Z.compare_spec ea ec); simpl; try reflexivity; try lia;
       subst;
       destruct (Pos.compare_spec ma mb); simpl; try discriminate;
       destruct (Pos.compare_spec mb mc); simpl; try discriminate;
       destruct (Pos.compare_spec ma mc); simpl; try reflexivity; try lia.
Qed.

(** ** atools.h *)

(** X1. The four tolerant comparisons of [float]s give the same answer
    with their two operands exchanged, NaN and the infinities included. *)
Theorem almostEqual_symmetric (f1 f2 epsilon : F32.float) :
  almostEqual f1 f2 = almostEqual f2 f1
  /\ almostEqualEps f1 f2 epsilon = almostEqualEps f2 f1 epsilon
  /\ almostNotEqual f1 f2 = almostNotEqual f2 f1
  /\ almostNotEqualEps f1 f2 epsilon = almostNotEqualEps f2 f1 epsilon.
Proof.
  unfold almostEqual, almostEqualEps, almostNotEqual, almostNotEqualEps.
  now rewrite (abs_sub_comm f1 f2).
Qed.

Lemma sub_diag (x : F32.float) :
  F32.sub x x = if F32.isFinite x then S754_zero false else S754_nan.
Proof.
  destruct x as [s|s| |s m e]; try (destruct s; reflexivity); try reflexivity.
  unfold F32.sub, SFsub. now rewrite Z.sub_diag.
Qed.

(** X2. A [float] is almost equal to itself exactly when it is finite:
    NaN and the two infinities are not almost equal to themselves.  With
    a tolerance of one's own, the tolerance must not be below zero. *)
Theorem almostEqual_reflexive_iff_finite (x epsilon : F32.float) :
  almostEqual x x = F32.isFinite x
  /\ almostEqualEps x x epsilon
     = F32.isFinite x && F32.leb (F32.of_Z 0) epsilon.
Proof.
  unfold almostEqual, almostEqualEps. rewrite sub_diag.
  destruct (F32.isFinite x); split; reflexivity.
Qed.

(** X3. [almostEqual] and [almostNotEqual] are not each other's negation:
    both hold when the distance is the [float] epsilon exactly, as for 1
    and the next [float] above it, and neither holds when the difference
    is NaN; at least one holds in all other cases. *)
Theorem almostEqual_almostNotEqual (f1 f2 : F32.float) :
  almostEqual f1 f2 || almostNotEqual f1 f2 = negb (F32.isNaN (F32.sub f1 f2))
  /\ almostEqual f1 f2 && almostNotEqual f1 f2
     = F32.eqb (F32.abs (F32.sub f1 f2)) F32.epsilon
  /\ almostEqual (S754_finite false 8388609 (-23)) (F32.of_Z 1)
     && almostNotEqual (S754_finite false 8388609 (-23)) (F32.of_Z 1) = true.
Proof.
  unfold almostEqual, almostNotEqual, F32.geb, F32.leb, F32.eqb.
  split; [|split; [apply SFleb_SFeqb | reflexivity]].
  destruct (F32.isNaN (F32.sub f1 f2)) eqn:Hnan.
  - destruct (F32.sub f1 f2); try discriminate Hnan. reflexivity.
  - assert (Ha : F32.isNaN (F32.abs (F32.sub f1 f2)) = false)
      by (destruct (F32.sub f1 f2); [reflexivity .. | discriminate | reflexivity]).
    destruct (SFleb (F32.abs (F32.sub f1 f2)) F32.epsilon) eqn:E; [reflexivity|].
    cbn [orb negb]. now apply SFleb_total.
Qed.

(** X4. [sign] is odd, and it is zero for the two zeros and for NaN and
    for nothing else. *)
Theorem sign_odd (t : F32.float) :
  sign (F32.opp t) = - sign t
  /\ (sign t = 0 <-> F32.isNaN t = true \/ F32.eqb t (F32.of_Z 0) = true).
Proof.
  destruct t as [s|s| |s m e]; try destruct s; cbn; split; try reflexivity;
    split; intros H; try discriminate H; auto; destruct H; discriminate.
Qed.

(** ** geo/rect.cpp *)
Section RectFacts.

Import geo.

(** X5. [inflate] leaves an invalid rectangle as it is; of a valid one it
    never moves the west edge below -180, the east edge above 180, the
    north edge above 90 or the south edge below -90, whatever the two
    amounts are, NaN included. *)
Theorem inflate_clamped (degreesLon degreesLat : F32.float) (r : Rect.t) :
  (Rect.isValid r = false -> Rect.inflate degreesLon degreesLat r = r)
  /\ (Rect.isValid r = true ->
      F32.leb (F32.of_Z (-180)) (Rect.getWest (Rect.inflate degreesLon degreesLat r)) = true
      /\ F32.leb (Rect.getEast (Rect.inflate degreesLon degreesLat r)) (F32.of_Z 180) = true
      /\ F32.leb (Rect.getNorth (Rect.inflate degreesLon degreesLat r)) (F32.of_Z 90) = true
      /\ F32.leb (F32.of_Z (-90)) (Rect.getSouth (Rect.inflate degreesLon degreesLat r)) = true).
Proof.
  unfold Rect.inflate. split; intros Hv; rewrite Hv; [reflexivity|].
  cbn [negb]. unfold F32.gtb, F32.ltb.
  destruct (SFltb (F32.of_Z (-180)) (F32.sub (Rect.getWest r) degreesLon)) eqn:Hw;
  match goal with |- context [SFltb (F32.add (Rect.getEast ?r1) degreesLon) _] =>
    destruct (SFltb (F32.add (Rect.getEast r1) degreesLon) (F32.of_Z 180)) eqn:He end;
  match goal with |- context [SFltb (F32.add (Rect.getNorth ?r2) degreesLat) _] =>
    destruct (SFltb (F32.add (Rect.getNorth r2) degreesLat) (F32.of_Z 90)) eqn:Hn end;
  match goal with |- context [SFltb _ (F32.sub (Rect.getSouth ?r3) degreesLat)] =>
    destruct (SFltb (F32.of_Z (-90)) (F32.sub (Rect.getSouth r3) degreesLat)) eqn:Hs end;
  cbn [Rect.getWest Rect.getEast Rect.getNorth Rect.getSouth Rect.topLeft
       Rect.bottomRight Pos.setLonX Pos.setLatY Pos.lonX Pos.latY] in *;
  repeat split; try reflexivity; apply SFltb_SFleb; assumption.
Qed.

(** The rectangle of the sample reaches the west and the north limit. *)
Lemma inflate_clamped_witness :
  Rect.inflate (F32.of_Z 100) (F32.of_Z 60) sample.texas
  = Rect.make (F32.of_Z (-180)) (F32.of_Z 90) (F32.of_Z 7) (F32.of_Z (-35))
  /\ F32.leb (F32.of_Z (-180))
       (Rect.getWest (Rect.inflate (F32.of_Z 100) (F32.of_Z 60) sample.texas)) = true.
Proof.
  split; [reflexivity|].
  apply (proj2 (inflate_clamped (F32.of_Z 100) (F32.of_Z 60) sample.texas)).
  reflexivity.
Defined.

(** The four-case test of [overlaps] on two ordered intervals is the
    plain test that neither lies beyond the other. *)
Lemma four_cases_meet (n s n2 s2 : F32.float) :
  F32.isNaN n = false -> F32.isNaN s = false ->
  F32.isNaN n2 = false -> F32.isNaN s2 = false ->
  SFleb s n = true -> SFleb s2 n2 = true ->
  (SFleb n2 n && SFleb s n2) || (SFleb n n2 && SFleb s2 n)
  || (SFleb s2 n && SFleb s s2) || (SFleb s n2 && SFleb s2 s)
  = SFleb s n2 && SFleb s2 n.
Proof.
  intros Nn Ns Nn2 Ns2 H1 H2.
  destruct (SFleb s n2) eqn:A, (SFleb s2 n) eqn:B,
           (SFleb n2 n) eqn:C, (SFleb n n2) eqn:D,
           (SFleb s s2) eqn:E, (SFleb s2 s) eqn:F;
    try reflexivity; exfalso;
    match goal with
    | X : SFleb ?a ?b = true, Y : SFleb ?b ?c = true, Z : SFleb ?a ?c = false |- _ =>
        rewrite (SFleb_trans a b c X Y) in Z; discriminate Z
    | X : SFleb ?a ?b = false, Y : SFleb ?b ?a = false,
      Na : F32.isNaN ?a = false, Nb : F32.isNaN ?b = false |- _ =>
        rewrite (SFleb_total a b Na Nb X) in Y; discriminate Y
    end.
Qed.

(** X6. For two valid rectangles with no NaN in them that do not cross
    the antimeridian, have their south edge not above their north edge and
    are not both single points, [overlaps] and [overlapsInternal] agree. *)
Theorem overlaps_is_overlapsInternal (defaultEpsilon : F32.float) (a b : Rect.t) :
  Rect.isValid a = true -> Rect.isValid b = true ->
  props.numeric a = true -> props.numeric b = true ->
  Rect.crossesAntiMeridian a = false -> Rect.crossesAntiMeridian b = false ->
  F32.leb (Rect.getSouth a) (Rect.getNorth a) = true ->
  F32.leb (Rect.getSouth b) (Rect.getNorth b) = true ->
  Rect.isPoint a defaultEpsilon && Rect.isPoint b defaultEpsilon = false ->
  Rect.overlaps defaultEpsilon a b = Rect.overlapsInternal a b.
Proof.
  intros Va Vb Na Nb Ca Cb Sa Sb Hp.
  unfold props.numeric in Na, Nb.
  repeat (apply andb_prop in Na as [Na ?]). repeat (apply andb_prop in Nb as [Nb ?]).
  repeat match goal with H : negb _ = true |- _ => apply negb_true_iff in H end.
  assert (Wa : SFleb (Rect.getWest a) (Rect.getEast a) = true).
  { unfold Rect.crossesAntiMeridian in Ca. apply orb_false_elim in Ca as [Ca _].
    unfold F32.ltb in Ca. rewrite SFltb_negb_SFleb in Ca by assumption.
    now apply negb_false_iff in Ca. }
  assert (Wb : SFleb (Rect.getWest b) (Rect.getEast b) = true).
  { unfold Rect.crossesAntiMeridian in Cb. apply orb_false_elim in Cb as [Cb _].
    unfold F32.ltb in Cb. rewrite SFltb_negb_SFleb in Cb by assumption.
    now apply negb_false_iff in Cb. }
  rewrite overlaps_unfold, Va, Vb, Hp, Ca, Cb. cbn [negb orb].
  unfold props.latitudesMeet, Rect.overlapsInternal, F32.geb, F32.gtb, F32.ltb, F32.leb in *.
  rewrite four_cases_meet by assumption.
  rewrite (four_cases_meet (Rect.getEast a) (Rect.getWest a)
             (Rect.getEast b) (Rect.getWest b)) by assumption.
  rewrite !SFltb_negb_SFleb by assumption.
  destruct (SFleb (Rect.getSouth a) (Rect.getNorth b)),
           (SFleb (Rect.getSouth b) (Rect.getNorth a)),
           (SFleb (Rect.getWest a) (Rect.getEast b)),
           (SFleb (Rect.getWest b) (Rect.getEast a)); reflexivity.
Qed.

(** Two rectangles that share a part, and two that do not. *)
Lemma overlaps_is_overlapsInternal_witness :
  Rect.overlaps F32.epsilon sample.texas sample.gulf
  = Rect.overlapsInternal sample.texas sample.gulf
  /\ Rect.overlapsInternal sample.texas sample.gulf = true
  /\ Rect.overlaps F32.epsilon sample.texas
       (Rect.make (F32.of_Z 10) (F32.of_Z 50) (F32.of_Z 20) (F32.of_Z 40))
     = false.
Proof.
  split; [|split; [reflexivity|]].
  - apply overlaps_is_overlapsInternal; reflexivity.
  - rewrite overlaps_is_overlapsInternal; reflexivity.
Defined.

End RectFacts.

Section RectComposition.

Import geo.

(** X7. A rectangle that contains a valid position overlaps the
    rectangle made of that position alone, unless both count as single
    points, in which case [overlaps] compares them for equality. *)
Theorem contains_overlaps_ofPos (defaultEpsilon : F32.float) (r : Rect.t) (pos : Pos.t) :
  Rect.contains r pos = true ->
  Pos.isValid pos = true ->
  Rect.isPoint r defaultEpsilon && Rect.isPoint (Rect.ofPos pos) defaultEpsilon = false ->
  Rect.overlaps defaultEpsilon r (Rect.ofPos pos) = true.
Proof.
  intros Hc Hv Hp.
  assert (Hr : Rect.isValid r = true).
  { unfold Rect.contains, Rect.splitAtAntiMeridian in Hc.
    destruct (Rect.isValid r); [reflexivity|].
    destruct (false || Pos.isValid pos); discriminate Hc. }
  assert (Ho : Rect.isValid (Rect.ofPos pos) = true).
  { unfold Rect.isValid, Rect.ofPos. cbn. now rewrite Hv. }
  unfold Rect.contains in Hc. rewrite Hr in Hc. cbn [orb] in Hc.
  apply existsb_exists in Hc as [part [Hin Hins]].
  unfold Rect.inside, F32.geb, F32.leb in Hins.
  repeat (apply andb_prop in Hins as [Hins ?]).
  unfold Rect.splitAtAntiMeridian in Hin. rewrite Hr in Hin.
  assert (Hlat : SFleb (Pos.latY pos) (Rect.getNorth r) = true
                 /\ SFleb (Rect.getSouth r) (Pos.latY pos) = true).
  { destruct (Rect.crossesAntiMeridian r);
      [destruct Hin as [<-|[<-|[]]] | destruct Hin as [<-|[]]]; split; assumption. }
  assert (Hlon : if Rect.crossesAntiMeridian r
                 then SFleb (Rect.getWest r) (Pos.lonX pos) = true
                      \/ SFleb (Pos.lonX pos) (Rect.getEast r) = true
                 else SFleb (Rect.getWest r) (Pos.lonX pos) = true
                      /\ SFleb (Pos.lonX pos) (Rect.getEast r) = true).
  { destruct (Rect.crossesAntiMeridian r);
      [destruct Hin as [<-|[<-|[]]]; [left | right] | destruct Hin as [<-|[]]; split];
      assumption. }
  clear Hin Hins. destruct Hlat as [Hn Hs].
  rewrite overlaps_unfold, Hr, Ho, Hp. cbn [negb orb].
  unfold props.latitudesMeet, F32.geb, F32.leb.
  change (Rect.getNorth (Rect.ofPos pos)) with (Pos.latY pos).
  change (Rect.getSouth (Rect.ofPos pos)) with (Pos.latY pos).
  change (Rect.getEast (Rect.ofPos pos)) with (Pos.lonX pos).
  change (Rect.getWest (Rect.ofPos pos)) with (Pos.lonX pos).
  rewrite Hn, Hs. cbn [andb orb].
  destruct (Rect.crossesAntiMeridian r), (Rect.crossesAntiMeridian (Rect.ofPos pos));
    try reflexivity.
  - destruct Hlon as [Hl|Hl]; rewrite Hl; [apply orb_true_r | reflexivity].
  - destruct Hlon as [Hl _]. now rewrite Hl.
  - destruct Hlon as [Hl1 Hl2]. now rewrite Hl1, Hl2.
Qed.

(** Texas holds the airport KHYI. *)
Lemma contains_overlaps_ofPos_witness :
  Rect.contains sample.texas (sample.fetchAirportCoords "KHYI") = true
  /\ Rect.overlaps F32.epsilon sample.texas
       (Rect.ofPos (sample.fetchAirportCoords "KHYI")) = true.
Proof.
  split; [reflexivity|].
  apply contains_overlaps_ofPos; reflexivity.
Defined.

(** X8. [splitAtAntiMeridian] gives nothing for an invalid rectangle, the
    rectangle itself and nothing else when it does not cross, and when it
    does the two rectangles from its west edge to 180 and from -180 to its
    east edge, with its latitudes.  For a valid rectangle without NaN
    whose west edge is not beyond 180 and whose east edge is not beyond
    -180, every part has its west edge not east of its east edge, and the
    latitudes of the rectangle. *)
Theorem splitAtAntiMeridian_ordered (r : Rect.t) :
  length (Rect.splitAtAntiMeridian r)
  = (if Rect.isValid r then if Rect.crossesAntiMeridian r then 2 else 1 else 0)%nat
  /\ Rect.splitAtAntiMeridian r
     = (if Rect.isValid r then
          if Rect.crossesAntiMeridian r then
            [ Rect.make (Rect.getWest r) (Rect.getNorth r) (F32.of_Z 180) (Rect.getSouth r);
              Rect.make (F32.of_Z (-180)) (Rect.getNorth r) (Rect.getEast r) (Rect.getSouth r) ]
          else [ r ]
        else [])
  /\ (Rect.isValid r = true -> props.numeric r = true ->
      F32.leb (Rect.getWest r) (F32.of_Z 180) = true ->
      F32.leb (F32.of_Z (-180)) (Rect.getEast r) = true ->
      forall part : Rect.t,
        In part (Rect.splitAtAntiMeridian r) ->
        F32.leb (Rect.getWest part) (Rect.getEast part) = true
        /\ Rect.getNorth part = Rect.getNorth r
        /\ Rect.getSouth part = Rect.getSouth r).
Proof.
  unfold Rect.splitAtAntiMeridian. split; [|split].
  - destruct (Rect.isValid r); [destruct (Rect.crossesAntiMeridian r)|]; reflexivity.
  - reflexivity.
  - intros Hv Hn Hw He part. rewrite Hv.
    destruct (Rect.crossesAntiMeridian r) eqn:Hc.
    + intros [<-|[<-|[]]]; repeat split; assumption.
    + intros [<-|[]]. repeat split.
      unfold props.numeric in Hn. repeat (apply andb_prop in Hn as [Hn ?]).
      repeat match goal with H : negb _ = true |- _ => apply negb_true_iff in H end.
      unfold Rect.crossesAntiMeridian in Hc. apply orb_false_elim in Hc as [Hc _].
      unfold F32.ltb in Hc. rewrite SFltb_negb_SFleb in Hc by assumption.
      now apply negb_false_iff in Hc.
Qed.

(** The western part of the rectangle from 170 to -170, and a rectangle
    that does not cross. *)
Lemma splitAtAntiMeridian_ordered_witness :
  In (Rect.make (F32.of_Z 170) (F32.of_Z 10) (F32.of_Z 180) (F32.of_Z 0))
     (Rect.splitAtAntiMeridian sample.tropics)
  /\ F32.leb (Rect.getWest (Rect.make (F32.of_Z 170) (F32.of_Z 10) (F32.of_Z 180) (F32.of_Z 0)))
             (Rect.getEast (Rect.make (F32.of_Z 170) (F32.of_Z 10) (F32.of_Z 180) (F32.of_Z 0)))
     = true
  /\ Rect.splitAtAntiMeridian sample.texas = [sample.texas].
Proof.
  assert (Hin : In (Rect.make (F32.of_Z 170) (F32.of_Z 10) (F32.of_Z 180) (F32.of_Z 0))
                   (Rect.splitAtAntiMeridian sample.tropics)) by (left; reflexivity).
  split; [exact Hin|]. split.
  - apply (proj2 (proj2 (splitAtAntiMeridian_ordered sample.tropics))
             eq_refl eq_refl eq_refl eq_refl _ Hin).
  - exact (proj1 (proj2 (splitAtAntiMeridian_ordered sample.texas))).
Defined.

End RectComposition.

(** ** util/filesystemwatcher.cpp *)
Section WatcherMore.

Import util util.FileSystemWatcher.

Variables (minFileSize delayMs checkMs : Z).

Local Abbreviation run := (FileSystemWatcher.run minFileSize delayMs checkMs).
Local Abbreviation handle := (FileSystemWatcher.handle minFileSize delayMs checkMs).
Local Abbreviation pathOrFileChanged :=
  (FileSystemWatcher.pathOrFileChanged minFileSize delayMs checkMs).

(** X9. After [clear] the watcher is dead: whatever notifications arrive
    and however much time passes, it emits nothing and stays as it is;
    and a second [clear] changes nothing. *)
Theorem clear_silences (w : t) (evs : list Event) :
  run evs (clear w) = (clear w, [])
  /\ clear (clear w) = clear w
  /\ deleteFsWatcher (deleteFsWatcher w) = deleteFsWatcher w.
Proof.
  split; [|split; reflexivity].
  induction evs as [|ev evs IH]; [reflexivity|].
  cbn [FileSystemWatcher.run].
  assert (H : handle ev (clear w) = (clear w, [])) by (destruct ev; reflexivity).
  rewrite H, IH. reflexivity.
Qed.

(** X10. No false alarm: while the delay timer is stopped and the file is
    unusable or has the recorded time stamp and size, the watcher emits
    nothing, whatever notifications arrive and however much time passes,
    and it keeps its record. *)
Theorem unchanged_file_is_silent (f : FileSystem.File) (evs : list Event) (w : t) :
  Forall (props.shows f) evs ->
  usable minFileSize f = false \/ differs f w = false ->
  QTimer.remaining (delayTimer w) = None ->
  snd (run evs w) = []
  /\ fileTimestamp (fst (run evs w)) = fileTimestamp w
  /\ lastFileSize (fst (run evs w)) = lastFileSize w
  /\ QTimer.remaining (delayTimer (fst (run evs w))) = None.
Proof. apply run_same. Qed.

(** X11. A watcher that is started again keeps the time stamp and the
    size that it recorded before: a file with that size and no later time
    stamp is never announced, on whatever path the watcher is started. *)
Theorem restart_keeps_record (name : string) (f : FileSystem.File)
    (evs : list Event) (w : t) :
  Forall (props.shows f) evs ->
  differs f w = false ->
  snd (run evs (setFilenameAndStart checkMs name w)) = []
  /\ fileTimestamp (setFilenameAndStart checkMs name w) = fileTimestamp w
  /\ lastFileSize (setFilenameAndStart checkMs name w) = lastFileSize w.
Proof.
  intros Hevs Hf. split; [|split; reflexivity].
  apply (run_same minFileSize delayMs checkMs f evs _ Hevs); [now right | reflexivity].
Qed.

End WatcherMore.

Section WatcherPolling.

Import util util.FileSystemWatcher.

Variables (minFileSize delayMs checkMs : Z).

Local Abbreviation run := (FileSystemWatcher.run minFileSize delayMs checkMs).
Local Abbreviation handle := (FileSystemWatcher.handle minFileSize delayMs checkMs).
Local Abbreviation pathOrFileChanged :=
  (FileSystemWatcher.pathOrFileChanged minFileSize delayMs checkMs).

(** While the periodic timer has more milliseconds left than pass, and
    the delay timer is stopped, nothing happens but the count-down. *)
Lemma run_wait_periodic (n : nat) (f : FileSystem.File) (fn : string)
    (ts : QDateTime.t) (sz : Z) (d : QTimer.t) (ss : bool) (iv p : Z) (pc wt : bool) :
  QTimer.remaining d = None ->
  Z.of_nat n < p ->
  run (repeat (Elapsed f) n) (mk fn ts sz d (QTimer.mk ss iv (Some p)) pc wt)
  = (mk fn ts sz d (QTimer.mk ss iv (Some (p - Z.of_nat n))) pc wt, []).
Proof.
  intros Hd. revert p. induction n as [|n IH]; intros p Hp.
  - simpl. now replace (p - Z.of_nat 0) with p by lia.
  - cbn [repeat FileSystemWatcher.run].
    assert (H1 : (p <=? 1) = false) by lia.
    unfold FileSystemWatcher.handle, QTimer.elapse.
    cbn [delayTimer periodicCheckTimer QTimer.remaining].
    rewrite H1, Hd. cbn -[Z.sub Z.of_nat].
    rewrite IH by lia.
    now replace (p - 1 - Z.of_nat n) with (p - Z.of_nat (S n)) by lia.
Qed.

(** The millisecond at which the periodic timer runs out and finds the
    file changed. *)
Lemma handle_poll_detects (f : FileSystem.File) (fn : string) (ts : QDateTime.t)
    (sz : Z) (div : Z) (ss : bool) (iv : Z) (wt : bool) :
  usable minFileSize f = true ->
  differs f (mk fn ts sz (QTimer.mk true div None) (QTimer.mk ss iv (Some 1)) true wt)
  = true ->
  handle (Elapsed f)
    (mk fn ts sz (QTimer.mk true div None) (QTimer.mk ss iv (Some 1)) true wt)
  = (mk fn (FileSystem.lastModified f) (FileSystem.size f)
        (QTimer.mk true delayMs (Some delayMs))
        (QTimer.mk (if ss then true else false) iv None) true wt, []).
Proof.
  intros Hu Hd.
  unfold differs in Hd. cbn [fileTimestamp lastFileSize] in Hd.
  unfold FileSystemWatcher.handle, QTimer.elapse, FileSystemWatcher.pathOrFileChanged,
    differs.
  destruct ss;
    cbn -[usable QDateTime.isValid QDateTime.gtb Z.eqb];
    rewrite Hu, Hd; reflexivity.
Qed.

(** A change that no notification tells of, and the periodic timer. *)
Lemma run_poll (f : FileSystem.File) (w : t) (p : Z) :
  usable minFileSize f = true -> differs f w = true ->
  periodicConnected w = true ->
  QTimer.singleShot (delayTimer w) = true ->
  QTimer.remaining (delayTimer w) = None ->
  QTimer.remaining (periodicCheckTimer w) = Some p ->
  0 < p -> 0 < delayMs ->
  (forall n : nat, Z.of_nat n < p + delayMs ->
     snd (run (repeat (Elapsed f) n) w) = [])
  /\ snd (run (repeat (Elapsed f) (Z.to_nat (p + delayMs))) w)
     = [fileUpdated (filename w)]
  /\ fileTimestamp (fst (run (repeat (Elapsed f) (Z.to_nat (p + delayMs))) w))
     = FileSystem.lastModified f
  /\ lastFileSize (fst (run (repeat (Elapsed f) (Z.to_nat (p + delayMs))) w))
     = FileSystem.size f
  /\ QTimer.remaining
       (periodicCheckTimer (fst (run (repeat (Elapsed f) (Z.to_nat (p + delayMs))) w)))
     = Some checkMs.
Proof.
  destruct w as [fn ts sz [dss div drem] [pss piv prem] pc wt].
  cbn [periodicConnected delayTimer periodicCheckTimer QTimer.singleShot
       QTimer.remaining filename].
  intros Hu Hd -> -> -> -> Hp Hdelay.
  (* the state after [p] milliseconds *)
  assert (Hpoll : run (repeat (Elapsed f) (Z.to_nat p))
                    (mk fn ts sz (QTimer.mk true div None) (QTimer.mk pss piv (Some p)) true wt)
                  = (mk fn (FileSystem.lastModified f) (FileSystem.size f)
                        (QTimer.mk true delayMs (Some delayMs))
                        (QTimer.mk (if pss then true else false) piv None) true wt, [])).
  { replace (Z.to_nat p) with (Z.to_nat (p - 1) + 1)%nat by lia.
    rewrite repeat_app, run_app, run_wait_periodic by (reflexivity || lia).
    replace (p - Z.of_nat (Z.to_nat (p - 1))) with 1 by lia.
    cbn [repeat FileSystemWatcher.run].
    rewrite handle_poll_detects by assumption. reflexivity. }
  assert (Hafter : forall k : nat, Z.of_nat k < delayMs ->
            run (repeat (Elapsed f) (Z.to_nat p + k))
              (mk fn ts sz (QTimer.mk true div None) (QTimer.mk pss piv (Some p)) true wt)
            = (mk fn (FileSystem.lastModified f) (FileSystem.size f)
                  (QTimer.mk true delayMs (Some (delayMs - Z.of_nat k)))
                  (QTimer.mk (if pss then true else false) piv None) true wt, [])).
  { intros k Hk. rewrite repeat_app, run_app, Hpoll.
    rewrite run_wait by (reflexivity || lia). reflexivity. }
  split; [|].
  - intros n Hn. destruct (Z_lt_le_dec (Z.of_nat n) p) as [Hlt|Hge].
    + rewrite run_wait_periodic by (reflexivity || lia). reflexivity.
    + replace n with (Z.to_nat p + (n - Z.to_nat p))%nat by lia.
      rewrite Hafter by lia. reflexivity.
  - replace (Z.to_nat (p + delayMs))
      with (Z.to_nat p + Z.to_nat (delayMs - 1) + 1)%nat by lia.
    rewrite repeat_app, run_app, Hafter by lia.
    replace (delayMs - Z.of_nat (Z.to_nat (delayMs - 1))) with 1 by lia.
    cbn [repeat FileSystemWatcher.run].
    rewrite run_fire by (destruct pss; reflexivity).
    cbn. repeat split.
Qed.

(** X12. The fallback works without any native notification: when the
    file has changed and the periodic timer has [p] milliseconds left, the
    change is announced by exactly one [fileUpdated], [p + delayMs]
    milliseconds later and not before, and the new state is recorded. *)
Theorem poll_detects_silent_change (f : FileSystem.File) (w : t) (p : Z) :
  usable minFileSize f = true -> differs f w = true ->
  periodicConnected w = true ->
  QTimer.singleShot (delayTimer w) = true ->
  QTimer.remaining (delayTimer w) = None ->
  QTimer.remaining (periodicCheckTimer w) = Some p ->
  0 < p -> 0 < delayMs ->
  (forall n : nat, Z.of_nat n < p + delayMs ->
     snd (run (repeat (Elapsed f) n) w) = [])
  /\ snd (run (repeat (Elapsed f) (Z.to_nat (p + delayMs))) w)
     = [fileUpdated (filename w)]
  /\ fileTimestamp (fst (run (repeat (Elapsed f) (Z.to_nat (p + delayMs))) w))
     = FileSystem.lastModified f
  /\ lastFileSize (fst (run (repeat (Elapsed f) (Z.to_nat (p + delayMs))) w))
     = FileSystem.size f
  /\ QTimer.remaining
       (periodicCheckTimer (fst (run (repeat (Elapsed f) (Z.to_nat (p + delayMs))) w)))
     = Some checkMs.
Proof. apply run_poll. Qed.

Lemma handle_polling (ev : Event) (w : t) :
  periodicConnected w = true -> props.polling w = true ->
  periodicConnected (fst (handle ev w)) = true
  /\ props.polling (fst (handle ev w)) = true.
Proof.
  destruct w as [fn ts sz [dss div drem] [pss piv prem] pc wt].
  unfold props.polling, QTimer.isActive.
  cbn [periodicConnected delayTimer periodicCheckTimer QTimer.remaining].
  intros -> Hact.
  destruct ev as [f|f]; unfold FileSystemWatcher.handle,
    FileSystemWatcher.pathOrFileChanged, FileSystemWatcher.fileUpdatedDelayed,
    QTimer.elapse.
  - cbn [watching]. destruct wt; [|now split].
    destruct (usable minFileSize f); [destruct (differs f _)|];
      split; try reflexivity; cbn; now rewrite ?orb_true_r.
  - cbn [delayTimer periodicCheckTimer QTimer.remaining QTimer.singleShot
         QTimer.interval].
    destruct drem as [d|], prem as [p|]; try discriminate Hact;
      try destruct (d <=? 1); try destruct (p <=? 1);
      try destruct dss; try destruct pss;
      cbn [fst snd andb periodicConnected];
      try destruct (usable minFileSize f);
      try match goal with |- context [differs f ?x] => destruct (differs f x) end;
      split; try reflexivity; cbn; now rewrite ?orb_true_r.
Qed.

(** X13. A started watcher never falls idle: after [setFilenameAndStart],
    whatever notifications arrive and however much time passes, the delay
    timer or the periodic timer runs, so that a later change of the file
    is looked for. *)
Theorem started_watcher_keeps_polling (name : string) (w : t) (evs : list Event) :
  props.polling (fst (run evs (setFilenameAndStart checkMs name w))) = true
  /\ periodicConnected (fst (run evs (setFilenameAndStart checkMs name w))) = true.
Proof.
  assert (H : forall evs w0, periodicConnected w0 = true -> props.polling w0 = true ->
            periodicConnected (fst (run evs w0)) = true
            /\ props.polling (fst (run evs w0)) = true).
  { clear. intros evs. induction evs as [|ev evs IH]; intros w0 Hc Hp; [now split|].
    cbn [FileSystemWatcher.run].
    destruct (handle_polling ev w0 Hc Hp) as [Hc1 Hp1].
    destruct (handle ev w0) as [w1 s1]. cbn [fst] in *.
    specialize (IH w1 Hc1 Hp1).
    destruct (run evs w1) as [w2 s2]. exact IH. }
  destruct (H evs (setFilenameAndStart checkMs name w)) as [Hc Hp];
    [reflexivity | apply orb_true_r | now split].
Qed.

End WatcherPolling.

Section WatcherExamples.

Import util util.FileSystemWatcher.

(** Notifications and time with the file as it was recorded, and with the
    file gone. *)
Lemma unchanged_file_is_silent_witness :
  snd (run 100 1000 10000
         [Notified (sample.fileOf sample.laterLast);
          Elapsed (sample.fileOf sample.laterLast);
          Notified (sample.fileOf sample.laterLast)] sample.settled) = []
  /\ snd (run 100 1000 10000
            [Notified FileSystem.missing; Elapsed FileSystem.missing] sample.settled) = [].
Proof.
  split.
  - apply (unchanged_file_is_silent 100 1000 10000 (sample.fileOf sample.laterLast)).
    + repeat constructor.
    + right. reflexivity.
    + reflexivity.
  - apply (unchanged_file_is_silent 100 1000 10000 FileSystem.missing).
    + repeat constructor.
    + left. reflexivity.
    + reflexivity.
Defined.

(** The settled watcher started again on another path, where a file of
    the recorded size and time is found. *)
Lemma restart_keeps_record_witness :
  snd (run 100 1000 10000
         [Notified (sample.fileOf sample.laterFirst);
          Elapsed (sample.fileOf sample.laterFirst)]
         (setFilenameAndStart 10000 "other.rwx" sample.settled)) = [].
Proof.
  apply (restart_keeps_record 100 1000 10000 "other.rwx"
           (sample.fileOf sample.laterFirst)).
  - repeat constructor.
  - reflexivity.
Defined.

(** A watcher just started, with a period of fifty and a delay of ten
    milliseconds: the file is announced after sixty milliseconds. *)
Lemma poll_detects_silent_change_witness :
  (forall n : nat, Z.of_nat n < 50 + 10 ->
     snd (run 100 10 50 (repeat (Elapsed (sample.fileOf sample.laterLast)) n)
            (setFilenameAndStart 50 sample.path create)) = [])
  /\ snd (run 100 10 50
            (repeat (Elapsed (sample.fileOf sample.laterLast)) (Z.to_nat (50 + 10)))
            (setFilenameAndStart 50 sample.path create))
     = [fileUpdated sample.path].
Proof.
  destruct (poll_detects_silent_change 100 10 50 (sample.fileOf sample.laterLast)
              (setFilenameAndStart 50 sample.path create) 50)
    as (H1 & H2 & _); try reflexivity.
  split; [exact H1 | exact H2].
Defined.

End WatcherExamples.

(** ** fs/weather/xpweatherreader.cpp *)
Section ReaderMore.

Import geo weather.

Variable fetchAirportCoords : string -> Pos.t.
Variable fromString : string -> QDateTime.t.

Local Abbreviation readLine := (weather.readLine fetchAirportCoords fromString).
Local Abbreviation readLines := (weather.readLines fetchAirportCoords fromString).
Local Abbreviation read := (weather.read fetchAirportCoords fromString).
Local Abbreviation observations := (props.observations fromString).
Local Abbreviation applyObservation := (props.applyObservation fetchAirportCoords).

(** Every entry stems from one of the observations applied or was there
    before. *)
Lemma fold_applyObservation_sound (obs : list (string * string * QDateTime.t))
    (ix : Index.t) (key : string) (d : MetarData) (p : Pos.t) :
  fold_left applyObservation obs ix !! key = Some (d, p) ->
  ix !! key = Some (d, p)
  \/ (In (key, metar d, timestamp d) obs /\ ident d = key
      /\ p = fetchAirportCoords key /\ Pos.isValid p = true).
Proof.
  revert ix. induction obs as [|[[i l] t] obs IH]; intros ix H; [now left|].
  cbn [fold_left] in H. apply IH in H as [H|(H1 & H2 & H3 & H4)].
  - destruct (decide (i = key)) as [->|Hne].
    + rewrite applyObservation_same in H.
      destruct (ix !! key) as [[d0 p0]|] eqn:E.
      * destruct (QDateTime.gtb _ _); [now left|].
        destruct (Pos.isValid (fetchAirportCoords key)) eqn:Hv; [|now left].
        injection H as <- <-. right. cbn. auto.
      * destruct (Pos.isValid (fetchAirportCoords key)) eqn:Hv; [|discriminate H].
        injection H as <- <-. right. cbn. auto.
    + rewrite applyObservation_other in H by exact Hne. now left.
  - right. repeat split; try assumption. now right.
Qed.

(** An entry is never taken away, and an observation of a station with a
    valid position makes sure that there is one. *)
Lemma fold_applyObservation_complete (obs : list (string * string * QDateTime.t))
    (ix : Index.t) (key : string) :
  is_Some (ix !! key)
  \/ (Pos.isValid (fetchAirportCoords key) = true /\ exists l t, In (key, l, t) obs) ->
  is_Some (fold_left applyObservation obs ix !! key).
Proof.
  revert ix. induction obs as [|[[i l] t] obs IH]; intros ix H.
  - destruct H as [H|(_ & l & t & [])]. exact H.
  - cbn [fold_left]. apply IH.
    destruct (decide (i = key)) as [->|Hne].
    + left. rewrite applyObservation_same.
      destruct (ix !! key) as [[d0 p0]|] eqn:E.
      * destruct (QDateTime.gtb _ _); [eauto|]. destruct (Pos.isValid _); eauto.
      * destruct H as [[x Hx]|(Hv & _)]; [discriminate Hx|]. rewrite Hv. eauto.
    + rewrite applyObservation_other by exact Hne.
      destruct H as [H|(Hv & l' & t' & [Hin|Hin])]; [now left | congruence |].
      right. eauto.
Qed.

(** X14. After a successful read the index holds exactly the stations
    that have an observation line in the file and a valid position; the
    entry of a station is filed under its identifier at the position that
    the lookup gives, and its text and time stamp are those of one of the
    observation lines of that station. *)
Theorem read_index_domain (fs : FileSystem.t) (r : XpWeatherReader) (key : string) :
  fst (fst (read fs r)) = true ->
  let obs := observations QDateTime.null (FileSystem.delivered (fs (weatherFile r))) in
  (is_Some (index (snd (fst (read fs r))) !! key) <->
   Pos.isValid (fetchAirportCoords key) = true /\ exists l t, In (key, l, t) obs)
  /\ (forall (d : MetarData) (p : Pos.t),
         index (snd (fst (read fs r))) !! key = Some (d, p) ->
         In (key, metar d, timestamp d) obs /\ ident d = key
         /\ p = fetchAirportCoords key).
Proof.
  intros Hok obs.
  assert (Hix : index (snd (fst (read fs r)))
                = fold_left applyObservation obs ∅).
  { unfold weather.read, FileSystem.openText in *.
    destruct (FileSystem.canOpen (fs (weatherFile r))); [|discriminate Hok].
    cbn [fst snd index]. now rewrite loopIndex_readLines. }
  rewrite Hix. split; [split|].
  - intros [[d p] H]. apply fold_applyObservation_sound in H as [H|(H1 & _ & H3 & H4)].
    + now rewrite lookup_empty in H.
    + subst p. split; [exact H4 | eauto].
  - intros H. apply fold_applyObservation_complete. now right.
  - intros d p H. apply fold_applyObservation_sound in H as [H|(H1 & H2 & H3 & _)].
    + now rewrite lookup_empty in H.
    + auto.
Qed.

(** X15. Reading is idempotent: a second read of the same file system
    gives the same answer, the same object and the same warnings; and
    what a successful read leaves in the index does not depend on what
    the index held before. *)
Theorem read_idempotent (fs : FileSystem.t) (r : XpWeatherReader) (ix : Index.t) :
  read fs (snd (fst (read fs r))) = read fs r
  /\ (fst (fst (read fs r)) = true ->
      index (snd (fst (read fs (mkReader ix (weatherFile r) (fsWatcher r)))))
      = index (snd (fst (read fs r)))).
Proof.
  unfold weather.read.
  destruct (FileSystem.openText (fs (weatherFile r))) as [ls|] eqn:E;
    cbn [fst snd weatherFile index fsWatcher]; rewrite E; split; try reflexivity.
  discriminate.
Qed.

(** The warnings of the loop are those that were there and one for each
    malformed line, in the order of the file. *)
Lemma warnings_readLines_malformed (fileName : string) (ls : list string)
    (st : LoopState) :
  exists more,
    warnings (readLines fileName ls st) = warnings st ++ more
    /\ Forall2 (fun w line => exists n : Z, w = MetarDoesNotMatch fileName n line)
               more (props.malformed ls).
Proof.
  revert st. induction ls as [|raw ls IH]; intros st.
  - exists []. split; [now rewrite app_nil_r | constructor].
  - unfold weather.readLines in *. cbn [fold_left props.malformed].
    destruct (IH (readLine fileName st raw)) as (more & Hw & Hf).
    rewrite Hw. rewrite readLine_classify.
    destruct (props.classify raw) as [| |line|i line|line];
      try (exists more; split; [reflexivity | exact Hf]).
    + destruct (Index.contains _ _ && QDateTime.gtb _ _);
        exists more; split; try reflexivity; exact Hf.
    + exists (MetarDoesNotMatch fileName (lineNum st) line :: more).
      cbn [warnings]. split; [now rewrite <- app_assoc|].
      constructor; [eauto | exact Hf].
Qed.

(** X16. The warnings of a successful read are, in the order of the
    file, one for each line that has at least four characters and matches
    neither pattern, each with the name of the file and the text of its
    line; nothing else is written. *)
Theorem read_warnings (fs : FileSystem.t) (r : XpWeatherReader) :
  fst (fst (read fs r)) = true ->
  Forall2 (fun w line => exists n : Z, w = MetarDoesNotMatch (weatherFile r) n line)
          (snd (read fs r))
          (props.malformed (FileSystem.delivered (fs (weatherFile r)))).
Proof.
  unfold weather.read, FileSystem.openText.
  destruct (FileSystem.canOpen (fs (weatherFile r))); [|discriminate].
  intros _. cbn [snd].
  destruct (warnings_readLines_malformed (weatherFile r)
              (FileSystem.delivered (fs (weatherFile r))) (loopStart (index r)))
    as (more & -> & Hf).
  exact Hf.
Qed.

End ReaderMore.

Section QueryMore.

Import geo weather.

Variable fetchAirportCoords : string -> Pos.t.
Variable fromString : string -> QDateTime.t.
Variable distanceMeterTo : Pos.t -> Pos.t -> F32.float.
Variable checkMs : Z.


(** The nearest entry is an entry of the index. *)
Lemma getNearest_lookup (pos : Pos.t) (ix : Index.t) (key : string)
    (v : MetarData * Pos.t) :
  Index.getNearest distanceMeterTo pos ix = Some (key, v) -> ix !! key = Some v.
Proof.
  unfold Index.getNearest. intros H.
  apply elem_of_map_to_list.
  revert H. generalize (map_to_list ix). intros l. revert key v.
  induction l as [|e l IH]; intros key v; [discriminate|].
  cbn [foldr]. unfold Index.closer at 1.
  destruct (foldr _ None l) as [b|] eqn:E.
  - destruct (F32.ltb _ _); intros [= H].
    + subst e. apply list_elem_of_here.
    + subst b. destruct (IH key v eq_refl); apply list_elem_of_further; constructor;
        assumption.
  - intros [= ->]. apply list_elem_of_here.
Qed.

(** X18. A query never fills both texts of its result; it fills the text
    of the exact match only for a station that the index holds; and on an
    empty index, as after [clear], it fills none.  [getMetar] is empty for
    a station that the index does not hold. *)
Theorem query_texts_exclusive (now : Z) (station : string) (pos : Pos.t)
    (r : XpWeatherReader) :
  let res := getXplaneMetar distanceMeterTo now station pos r in
  (metarForStation res = EmptyString \/ metarForNearest res = EmptyString)
  /\ (index r !! station = None ->
      metarForStation res = EmptyString /\ getMetar station r = EmptyString)
  /\ (index r = ∅ ->
      metarForStation res = EmptyString /\ metarForNearest res = EmptyString)
  /\ index (clear r) = ∅.
Proof.
  cbn zeta. unfold getXplaneMetar, getMetar, Index.value.
  split; [|split; [|split; [|reflexivity]]].
  - destruct (Index.getTypeOrNearest _ _ _ _ _) as [k d].
    destruct (negb _); [destruct (String.eqb k station)|]; cbn; auto.
  - intros Hnone. unfold Index.getTypeOrNearest. rewrite Hnone.
    split; [|reflexivity].
    destruct (Index.getNearest distanceMeterTo pos (index r)) as [[k [d p]]|] eqn:E;
      [|reflexivity].
    apply getNearest_lookup in E.
    destruct (negb _); [|reflexivity].
    destruct (String.eqb k station) eqn:Hk; [|reflexivity].
    apply String.eqb_eq in Hk. subst k. congruence.
  - intros ->. unfold Index.getTypeOrNearest, Index.getNearest.
    rewrite lookup_empty, map_to_list_empty. split; reflexivity.
Qed.

End QueryMore.

(** ** The reader and its watcher together *)
Section SystemFacts.

Import geo weather.

Variable fetchAirportCoords : string -> Pos.t.
Variable fromString : string -> QDateTime.t.
Variables (minFileSize delayMs checkMs : Z).

Local Abbreviation read := (weather.read fetchAirportCoords fromString).
Local Abbreviation deliver := (weather.deliver fetchAirportCoords fromString).
Local Abbreviation step :=
  (weather.step fetchAirportCoords fromString minFileSize delayMs checkMs).
Local Abbreviation steps :=
  (weather.steps fetchAirportCoords fromString minFileSize delayMs checkMs).
Local Abbreviation run := (util.FileSystemWatcher.run minFileSize delayMs checkMs).
Local Abbreviation handle := (util.FileSystemWatcher.handle minFileSize delayMs checkMs).

Lemma handle_filename (ev : util.FileSystemWatcher.Event) (w : util.FileSystemWatcher.t) :
  util.FileSystemWatcher.filename (fst (handle ev w)) = util.FileSystemWatcher.filename w.
Proof.
  destruct ev as [f|f]; unfold util.FileSystemWatcher.handle,
    util.FileSystemWatcher.pathOrFileChanged, util.FileSystemWatcher.fileUpdatedDelayed.
  - destruct (util.FileSystemWatcher.watching w); [|reflexivity].
    destruct (util.FileSystemWatcher.usable _ _);
      [destruct (util.FileSystemWatcher.differs _ _)|]; reflexivity.
  - destruct (util.QTimer.elapse (util.FileSystemWatcher.delayTimer w)) as [d [|]],
             (util.QTimer.elapse (util.FileSystemWatcher.periodicCheckTimer w)) as [p [|]];
      cbn [andb util.FileSystemWatcher.periodicConnected fst snd];
      try destruct (util.FileSystemWatcher.periodicConnected w);
      try destruct (util.FileSystemWatcher.usable _ _);
      try match goal with |- context [util.FileSystemWatcher.differs ?f ?x] =>
            destruct (util.FileSystemWatcher.differs f x) end;
      reflexivity.
Qed.

(** Without a regular file under the name of the reader the slot does
    nothing, however often it is called. *)
Lemma deliver_no_file (fs : FileSystem.t) (sigs : list util.FileSystemWatcher.Signal)
    (r : XpWeatherReader) :
  FileSystem.exists_ (fs (weatherFile r)) && FileSystem.isFile (fs (weatherFile r)) = false ->
  deliver fs sigs r = (r, [], []).
Proof.
  intros H. induction sigs as [|[name] sigs IH]; [reflexivity|].
  cbn [weather.deliver]. unfold onWatcherSignal, pathChanged. rewrite H, IH. reflexivity.
Qed.

Lemma steps_app (evs1 evs2 : list (FileSystem.t * bool)) (r : XpWeatherReader) :
  steps (evs1 ++ evs2) r =
  let '(r1, ws1, out1) := steps evs1 r in
  let '(r2, ws2, out2) := steps evs2 r1 in
  (r2, ws1 ++ ws2, out1 ++ out2).
Proof.
  revert r. induction evs1 as [|[fs native] evs1 IH]; intros r; cbn [app weather.steps].
  - destruct (steps evs2 r) as [[r2 ws2] out2]. reflexivity.
  - destruct (step fs native r) as [[r1 ws1] out1]. rewrite IH.
    destruct (steps evs1 r1) as [[r2 ws2] out2].
    destruct (steps evs2 r2) as [[r3 ws3] out3].
    now rewrite !app_assoc.
Qed.

(** As long as the watcher emits nothing, the reader stays as it is and
    only its watcher moves on. *)
Lemma steps_quiet (fs : FileSystem.t) (n : nat) (r : XpWeatherReader)
    (w : util.FileSystemWatcher.t) :
  fsWatcher r = Some w ->
  snd (run (repeat (util.FileSystemWatcher.Elapsed (fs (util.FileSystemWatcher.filename w))) n) w)
  = [] ->
  steps (repeat (fs, false) n) r
  = (mkReader (index r) (weatherFile r)
       (Some (fst (run (repeat (util.FileSystemWatcher.Elapsed
                                  (fs (util.FileSystemWatcher.filename w))) n) w))),
     [], []).
Proof.
  revert r w. induction n as [|n IH]; intros r w Hw Hs.
  - cbn. rewrite <- Hw. now destruct r.
  - cbn [repeat weather.steps util.FileSystemWatcher.run] in *.
    unfold weather.step. rewrite Hw.
    pose proof (handle_filename
                  (util.FileSystemWatcher.Elapsed (fs (util.FileSystemWatcher.filename w))) w)
      as Hfn.
    destruct (handle _ w) as [w1 s1]. cbn [fst] in Hfn.
    rewrite <- Hfn in *.
    destruct (run _ w1) as [w2 s2] eqn:Hrun. cbn [snd] in Hs.
    apply app_eq_nil in Hs as [-> ->].
    cbn [weather.deliver].
    rewrite (IH (mkReader (index r) (weatherFile r) (Some w1)) w1 eq_refl)
      by now rewrite Hrun.
    rewrite Hrun. reflexivity.
Qed.

(** X19. While there is no regular file under the name of the reader,
    whatever the watcher does and whatever events arrive, the reader keeps
    its index, emits no [weatherUpdated] and writes no warning. *)
Theorem missing_file_keeps_weather (evs : list (FileSystem.t * bool))
    (r : XpWeatherReader) :
  Forall (fun ev =>
            FileSystem.exists_ (fst ev (weatherFile r))
            && FileSystem.isFile (fst ev (weatherFile r)) = false) evs ->
  index (fst (fst (steps evs r))) = index r
  /\ weatherFile (fst (fst (steps evs r))) = weatherFile r
  /\ snd (fst (steps evs r)) = []
  /\ snd (steps evs r) = [].
Proof.
  intros H. revert r H. induction evs as [|[fs native] evs IH]; intros r H.
  - repeat split.
  - inversion H as [|? ? Hev Hevs]; subst. cbn [fst] in Hev.
    cbn [weather.steps].
    assert (Hstep : exists w', step fs native r
                               = (mkReader (index r) (weatherFile r) w', [], [])).
    { unfold weather.step. destruct (fsWatcher r) as [w|] eqn:Hw.
      - destruct (handle _ w) as [w1 s1].
        rewrite deliver_no_file by exact Hev. eauto.
      - exists None. rewrite <- Hw. now destruct r. }
    destruct Hstep as [w' ->].
    destruct (IH (mkReader (index r) (weatherFile r) w') Hevs) as (H1 & H2 & H3 & H4).
    destruct (steps evs _) as [[r2 ws2] out2]. cbn [fst snd] in *.
    subst. repeat split; assumption.
Qed.

End SystemFacts.

Lemma run_filename (minFileSize delayMs checkMs : Z)
    (evs : list util.FileSystemWatcher.Event) (w : util.FileSystemWatcher.t) :
  util.FileSystemWatcher.filename
    (fst (util.FileSystemWatcher.run minFileSize delayMs checkMs evs w))
  = util.FileSystemWatcher.filename w.
Proof.
  revert w. induction evs as [|ev evs IH]; intros w; [reflexivity|].
  cbn [util.FileSystemWatcher.run].
  pose proof (handle_filename minFileSize delayMs checkMs ev w) as Hf.
  destruct (util.FileSystemWatcher.handle minFileSize delayMs checkMs ev w) as [w1 s1].
  specialize (IH w1).
  destruct (util.FileSystemWatcher.run minFileSize delayMs checkMs evs w1) as [w2 s2].
  cbn [fst] in *. congruence.
Qed.

Section SystemStart.

Import geo weather.

Variable fetchAirportCoords : string -> Pos.t.
Variable fromString : string -> QDateTime.t.
Variables (minFileSize delayMs checkMs : Z).

Local Abbreviation read := (weather.read fetchAirportCoords fromString).
Local Abbreviation steps :=
  (weather.steps fetchAirportCoords fromString minFileSize delayMs checkMs).
Local Abbreviation run := (util.FileSystemWatcher.run minFileSize delayMs checkMs).
Local Abbreviation handle := (util.FileSystemWatcher.handle minFileSize delayMs checkMs).

(** X20. The first poll takes the file for changed: after
    [readWeatherFile] has loaded a file that the watcher accepts, and
    without any change of the file or notification, the file is read a
    second time and [weatherUpdated] is emitted, once, [checkMs + delayMs]
    milliseconds after the start and not before; the index is afterwards
    what the first load gave. *)
Theorem first_poll_reads_again (fs : FileSystem.t) (file : string) (r0 : XpWeatherReader) :
  util.FileSystemWatcher.usable minFileSize (fs file) = true ->
  FileSystem.canOpen (fs file) = true ->
  0 < checkMs -> 0 < delayMs ->
  let r1 := fst (fst (readWeatherFile fetchAirportCoords fromString checkMs fs file r0)) in
  (forall n : nat, Z.of_nat n < checkMs + delayMs ->
     snd (steps (repeat (fs, false) n) r1) = [])
  /\ snd (steps (repeat (fs, false) (Z.to_nat (checkMs + delayMs))) r1) = [weatherUpdated]
  /\ index (fst (fst (steps (repeat (fs, false) (Z.to_nat (checkMs + delayMs))) r1)))
     = index r1.
Proof.
  intros Hu Hopen Hc Hd.
  set (w0 := util.FileSystemWatcher.setFilenameAndStart checkMs file
               util.FileSystemWatcher.create).
  set (ix1 := loopIndex (weather.readLines fetchAirportCoords fromString file
                           (FileSystem.delivered (fs file)) (loopStart ∅))).
  assert (Hex : FileSystem.exists_ (fs file) && FileSystem.isFile (fs file) = true).
  { unfold util.FileSystemWatcher.usable in Hu.
    now apply andb_prop in Hu as [Hu _]. }
  assert (Hr1 : fst (fst (readWeatherFile fetchAirportCoords fromString checkMs fs file r0))
                = mkReader ix1 file (Some w0)).
  { unfold readWeatherFile. rewrite Hex. unfold weather.read, FileSystem.openText.
    cbn [weatherFile createFsWatcher clear deleteFsWatcher index fsWatcher].
    rewrite Hopen. reflexivity. }
  cbn zeta. rewrite Hr1.
  destruct (run_poll minFileSize delayMs checkMs (fs file) w0 checkMs)
    as (Hquiet & Hfire & _); try reflexivity; try assumption.
  assert (Hsteps : forall n : nat, Z.of_nat n < checkMs + delayMs ->
            steps (repeat (fs, false) n) (mkReader ix1 file (Some w0))
            = (mkReader ix1 file
                 (Some (fst (run (repeat (util.FileSystemWatcher.Elapsed (fs file)) n) w0))),
               [], [])).
  { intros n Hn.
    apply (steps_quiet fetchAirportCoords fromString minFileSize delayMs checkMs
             fs n (mkReader ix1 file (Some w0)) w0 eq_refl).
    now apply Hquiet. }
  split; [intros n Hn; now rewrite Hsteps|].
  replace (Z.to_nat (checkMs + delayMs))
    with (Z.to_nat (checkMs + delayMs - 1) + 1)%nat in * by lia.
  rewrite repeat_app, steps_app, Hsteps by lia.
  rewrite repeat_app, run_app in Hfire.
  destruct (run (repeat _ (Z.to_nat (checkMs + delayMs - 1))) w0) as [wm sm] eqn:Hm.
  assert (Hsm : sm = []).
  { specialize (Hquiet (Z.to_nat (checkMs + delayMs - 1))).
    rewrite Hm in Hquiet. apply Hquiet. lia. }
  assert (Hfn : util.FileSystemWatcher.filename wm = file).
  { pose proof (run_filename minFileSize delayMs checkMs
                  (repeat (util.FileSystemWatcher.Elapsed (fs file))
                          (Z.to_nat (checkMs + delayMs - 1))) w0) as Hf.
    rewrite Hm in Hf. exact Hf. }
  subst sm. cbn [fst].
  cbn [repeat util.FileSystemWatcher.run] in Hfire.
  destruct (handle (util.FileSystemWatcher.Elapsed (fs file)) wm) as [w' s'] eqn:Hh.
  cbn [app] in Hfire. rewrite app_nil_r in Hfire. cbn [snd] in Hfire. subst s'.
  cbn [repeat weather.steps]. unfold weather.step. cbn [fsWatcher].
  rewrite Hfn, Hh. cbn [weather.deliver index weatherFile].
  unfold onWatcherSignal, pathChanged. cbn [weatherFile]. rewrite Hex.
  unfold weather.read, FileSystem.openText. cbn [weatherFile]. rewrite Hopen.
  split; reflexivity.
Qed.

End SystemStart.

(** ** fs/bgl/recordtypes.cpp *)

(** Two enumerators with the same name are the same enumerator. *)
Ltac names_differ :=
  unfold props.namesEnumerators; split; [|split];
  [ let a := fresh in let b := fresh in let Hne := fresh in let E := fresh in
    intros a b Hne E; destruct a; destruct b;
    try discriminate E; now destruct Hne
  | let a := fresh in intros a; destruct a; discriminate
  | reflexivity ].

(** X21. Each function of recordtypes.cpp gives different enumerators
    named in its [switch] different names, gives none of them the empty
    name, and gives the empty name to every other value: among the
    enumerators the name tells the record type, and the empty name tells
    that the value is none of them. *)
Theorem record_type_names_distinct :
  props.namesEnumerators bgl.recordTypeStr
  /\ props.namesEnumerators bgl.airportRecordTypeStr
  /\ props.namesEnumerators bgl.runwayRecordTypeStr
  /\ props.namesEnumerators bgl.approachRecordTypeStr
  /\ props.namesEnumerators bgl.ilsvorRecordTypeStr
  /\ props.namesEnumerators bgl.ndbRecordTypeStr
  /\ props.namesEnumerators bgl.sceneryObjRecordTypeStr
  /\ props.namesEnumerators bgl.boundaryRecordTypeStr.
Proof. repeat (split; [names_differ|]). names_differ. Qed.

(** The transition record and the record of its legs: [TRANS] and
    [TRANS_LEGS]. *)
Lemma record_type_names_distinct_witness :
  bgl.rec.TRANSITION <> bgl.rec.TRANSITION_LEGS
  /\ bgl.approachRecordTypeStr (bgl.rec.named bgl.rec.TRANSITION)
     <> bgl.approachRecordTypeStr (bgl.rec.named bgl.rec.TRANSITION_LEGS).
Proof.
  assert (H : bgl.rec.TRANSITION <> bgl.rec.TRANSITION_LEGS) by discriminate.
  split; [exact H|].
  apply (proj1 (proj1 (proj2 (proj2 (proj2 record_type_names_distinct))))
           bgl.rec.TRANSITION bgl.rec.TRANSITION_LEGS).
  exact H.
Defined.

(** ** Examples for the reader *)
Section ReaderMoreExamples.

Import geo weather.

Local Abbreviation read := (weather.read sample.fetchAirportCoords sample.fromString).

(** KADS has a line in the file of three blocks and a position. *)
Lemma read_index_domain_witness :
  is_Some (index (snd (fst (read (sample.only (sample.fileOf sample.threeBlocks))
                                 sample.fresh))) !! "KADS"%string)
  <-> Pos.isValid (sample.fetchAirportCoords "KADS") = true
      /\ exists l t,
           In ("KADS"%string, l, t)
              (props.observations sample.fromString QDateTime.null
                 (FileSystem.delivered
                    (sample.only (sample.fileOf sample.threeBlocks)
                       (weatherFile sample.fresh)))).
Proof.
  apply (proj1 (read_index_domain sample.fetchAirportCoords sample.fromString
                  (sample.only (sample.fileOf sample.threeBlocks)) sample.fresh
                  "KADS" eq_refl)).
Defined.

(** The loaded reader and the fresh one end with the same index. *)
Lemma read_idempotent_witness :
  index (snd (fst (read (sample.only (sample.fileOf sample.laterLast))
                        (mkReader (index sample.loaded) (weatherFile sample.fresh)
                                  (fsWatcher sample.fresh)))))
  = index (snd (fst (read (sample.only (sample.fileOf sample.laterLast)) sample.fresh))).
Proof.
  apply (proj2 (read_idempotent sample.fetchAirportCoords sample.fromString
                  (sample.only (sample.fileOf sample.laterLast)) sample.fresh
                  (index sample.loaded))).
  reflexivity.
Defined.

(** A file with one malformed line, one line that is too short to be
    looked at, and two reports. *)
Lemma read_warnings_witness :
  Forall2 (fun w line => exists n : Z, w = MetarDoesNotMatch sample.path n line)
    (snd (read (sample.only
                  (sample.fileOf [sample.khyi1845; "  hello world "%string;
                                  "abc"%string; sample.kpro1855]))
               sample.fresh))
    ["hello world"%string].
Proof.
  apply (read_warnings sample.fetchAirportCoords sample.fromString
           (sample.only
              (sample.fileOf [sample.khyi1845; "  hello world "%string;
                              "abc"%string; sample.kpro1855]))
           sample.fresh).
  reflexivity.
Defined.


(** KPRO asked of a reader that has loaded KHYI only. *)
Lemma query_texts_exclusive_witness :
  metarForStation (getXplaneMetar sample.distanceMeterTo 1501441000000 "KPRO"
                     (sample.fetchAirportCoords "KPRO") sample.loaded) = EmptyString
  /\ getMetar "KPRO" sample.loaded = EmptyString.
Proof.
  apply (proj1 (proj2
           (query_texts_exclusive sample.distanceMeterTo 1501441000000 "KPRO"
              (sample.fetchAirportCoords "KPRO") sample.loaded))).
  reflexivity.
Defined.

(** A notification and a millisecond with the file gone, for a reader
    that has loaded KHYI and whose watcher polls. *)
Lemma missing_file_keeps_weather_witness :
  index (fst (fst (weather.steps sample.fetchAirportCoords sample.fromString 100 1000 10000
                     [(sample.only FileSystem.missing, true);
                      (sample.only FileSystem.missing, false)]
                     (mkReader (index sample.loaded) sample.path (Some sample.settled)))))
  = index sample.loaded
  /\ snd (weather.steps sample.fetchAirportCoords sample.fromString 100 1000 10000
            [(sample.only FileSystem.missing, true);
             (sample.only FileSystem.missing, false)]
            (mkReader (index sample.loaded) sample.path (Some sample.settled))) = [].
Proof.
  destruct (missing_file_keeps_weather sample.fetchAirportCoords sample.fromString
              100 1000 10000
              [(sample.only FileSystem.missing, true);
               (sample.only FileSystem.missing, false)]
              (mkReader (index sample.loaded) sample.path (Some sample.settled)))
    as (H1 & _ & _ & H4).
  - repeat constructor.
  - split; [exact H1 | exact H4].
Defined.

(** With a period of fifty and a delay of ten milliseconds the second
    read comes after sixty milliseconds. *)
Lemma first_poll_reads_again_witness :
  snd (weather.steps sample.fetchAirportCoords sample.fromString 100 10 50
         (repeat (sample.only (sample.fileOf sample.laterLast), false)
                 (Z.to_nat (50 + 10)))
         (fst (fst (readWeatherFile sample.fetchAirportCoords sample.fromString 50
                      (sample.only (sample.fileOf sample.laterLast)) sample.path
                      sample.fresh))))
  = [weatherUpdated].
Proof.
  apply (proj1 (proj2
           (first_poll_reads_again sample.fetchAirportCoords sample.fromString 100 10 50
              (sample.only (sample.fileOf sample.laterLast)) sample.path sample.fresh
              eq_refl eq_refl eq_refl eq_refl))).
Defined.

End ReaderMoreExamples.

(** ** More on rectangles, signals and line numbers *)
Section MoreFacts.

Import geo weather.

(** X22. For a valid rectangle that crosses the antimeridian and a
    position whose longitude lies between -180 and 180, [contains] holds
    exactly when the latitude lies between the south and the north edge
    and the longitude is not west of the west edge or not east of the east
    edge: the reading that [overlaps] gives to such a rectangle. *)
Theorem contains_crossing (r : Rect.t) (pos : Pos.t) :
  Rect.isValid r = true -> Rect.crossesAntiMeridian r = true ->
  F32.leb (F32.of_Z (-180)) (Pos.lonX pos) = true ->
  F32.leb (Pos.lonX pos) (F32.of_Z 180) = true ->
  Rect.contains r pos
  = (F32.leb (Rect.getSouth r) (Pos.latY pos) && F32.leb (Pos.latY pos) (Rect.getNorth r))
    && (F32.leb (Rect.getWest r) (Pos.lonX pos) || F32.leb (Pos.lonX pos) (Rect.getEast r)).
Proof.
  intros Hv Hc Hw He.
  unfold Rect.contains, Rect.splitAtAntiMeridian. rewrite Hv, Hc.
  cbn [orb existsb]. destruct pos as [lon lat]. rewrite !inside_make.
  cbn [Pos.lonX Pos.latY] in *. rewrite Hw, He.
  destruct (F32.leb (Rect.getSouth r) lat), (F32.leb lat (Rect.getNorth r)),
           (F32.leb (Rect.getWest r) lon), (F32.leb lon (Rect.getEast r)); reflexivity.
Qed.

(** Longitude 175 in the rectangle from 170 to -170. *)
Lemma contains_crossing_witness :
  Rect.contains sample.tropics (Pos.mk (F32.of_Z 175) (F32.of_Z 5))
  = (F32.leb (Rect.getSouth sample.tropics) (F32.of_Z 5)
     && F32.leb (F32.of_Z 5) (Rect.getNorth sample.tropics))
    && (F32.leb (Rect.getWest sample.tropics) (F32.of_Z 175)
        || F32.leb (F32.of_Z 175) (Rect.getEast sample.tropics)).
Proof.
  apply (contains_crossing sample.tropics (Pos.mk (F32.of_Z 175) (F32.of_Z 5)));
    reflexivity.
Defined.

(** X23. The rectangle made of one position is a single point, for a
    given tolerance, exactly when the position is valid, both its
    coordinates are finite and the tolerance is not below zero. *)
Theorem ofPos_isPoint (pos : Pos.t) (epsilonDegree : F32.float) :
  Rect.isPoint (Rect.ofPos pos) epsilonDegree
  = Pos.isValid pos && F32.isFinite (Pos.lonX pos) && F32.isFinite (Pos.latY pos)
    && F32.leb (F32.of_Z 0) epsilonDegree.
Proof.
  unfold Rect.isPoint, Rect.isValid, Rect.ofPos, almostEqualEps.
  cbn [Rect.topLeft Rect.bottomRight]. rewrite !sub_diag.
  destruct (Pos.isValid pos), (F32.isFinite (Pos.lonX pos)),
           (F32.isFinite (Pos.latY pos)); cbn [andb]; try reflexivity;
    now destruct (F32.leb _ _).
Qed.

(** X24. The watcher never announces another file: every signal of every
    run is [fileUpdated] with the name that the watcher holds. *)
Theorem signals_name_the_file (minFileSize delayMs checkMs : Z)
    (evs : list util.FileSystemWatcher.Event) (w : util.FileSystemWatcher.t) :
  Forall (fun s => s = util.FileSystemWatcher.fileUpdated (util.FileSystemWatcher.filename w))
         (snd (util.FileSystemWatcher.run minFileSize delayMs checkMs evs w)).
Proof.
  revert w. induction evs as [|ev evs IH]; intros w; [constructor|].
  cbn [util.FileSystemWatcher.run].
  pose proof (handle_filename minFileSize delayMs checkMs ev w) as Hf.
  assert (Hs : Forall (fun s => s = util.FileSystemWatcher.fileUpdated
                                    (util.FileSystemWatcher.filename w))
                 (snd (util.FileSystemWatcher.handle minFileSize delayMs checkMs ev w))).
  { destruct ev as [f|f]; unfold util.FileSystemWatcher.handle,
      util.FileSystemWatcher.pathOrFileChanged, util.FileSystemWatcher.fileUpdatedDelayed.
    - destruct (util.FileSystemWatcher.watching w); [|constructor].
      destruct (util.FileSystemWatcher.usable _ _);
        [destruct (util.FileSystemWatcher.differs _ _)|]; constructor.
    - destruct (util.QTimer.elapse (util.FileSystemWatcher.delayTimer w)) as [d [|]],
               (util.QTimer.elapse (util.FileSystemWatcher.periodicCheckTimer w)) as [p [|]];
        cbn [andb util.FileSystemWatcher.periodicConnected fst snd];
        try destruct (util.FileSystemWatcher.periodicConnected w);
        try destruct (util.FileSystemWatcher.usable _ _);
        try match goal with |- context [util.FileSystemWatcher.differs ?f ?x] =>
              destruct (util.FileSystemWatcher.differs f x) end;
        repeat constructor. }
  destruct (util.FileSystemWatcher.handle minFileSize delayMs checkMs ev w) as [w1 s1].
  specialize (IH w1).
  destruct (util.FileSystemWatcher.run minFileSize delayMs checkMs evs w1) as [w2 s2].
  cbn [fst snd] in *. rewrite Hf in IH. apply Forall_app. split; assumption.
Qed.

End MoreFacts.

Section LineNumbers.

Import geo weather.

Variable fetchAirportCoords : string -> Pos.t.
Variable fromString : string -> QDateTime.t.

Local Abbreviation readLine := (weather.readLine fetchAirportCoords fromString).
Local Abbreviation readLines := (weather.readLines fetchAirportCoords fromString).

(** A turn of the loop adds one to the line number or leaves it; it
    leaves it for a blank line and for a date header. *)
Lemma lineNum_readLine (fileName : string) (st : LoopState) (raw : string) :
  lineNum st <= lineNum (readLine fileName st raw) <= lineNum st + 1
  /\ (props.classify raw = props.Blank \/ (exists l, props.classify raw = props.DateHeader l) ->
      lineNum (readLine fileName st raw) = lineNum st).
Proof.
  rewrite readLine_classify.
  destruct (props.classify raw) as [| |line|i line|line]; cbn [lineNum];
    try destruct (Index.contains _ _ && QDateTime.gtb _ _); cbn [lineNum];
    (split; [lia|]); intros [H|[l H]]; try discriminate H; reflexivity.
Qed.

Lemma lineNum_readLines (fileName : string) (ls : list string) (st : LoopState) :
  lineNum st <= lineNum (readLines fileName ls st) <= lineNum st + Z.of_nat (length ls)
  /\ (Exists (fun raw => props.classify raw = props.Blank
                         \/ exists l, props.classify raw = props.DateHeader l) ls ->
      lineNum (readLines fileName ls st) < lineNum st + Z.of_nat (length ls)).
Proof.
  revert st. induction ls as [|raw ls IH]; intros st.
  - split; [cbn; lia | intros H; inversion H].
  - unfold weather.readLines in *. cbn [fold_left length].
    destruct (lineNum_readLine fileName st raw) as [H1 H2].
    destruct (IH (readLine fileName st raw)) as [H3 H4].
    split; [lia|]. intros H. inversion H as [? ? Hhd|? ? Htl]; subst.
    + rewrite (H2 Hhd) in H3. lia.
    + specialize (H4 Htl). lia.
Qed.

(** X25. In a file of fewer than [INT_MAX] lines the counter of [read]
    stays between one and [INT_MAX] after every line, so that no
    [lineNum++] wraps, and the number written with the warning for a
    malformed line is at least one and at most the position of the line
    in the file, and it is less than the position as soon as a blank line
    or a date header comes before the line. *)
Theorem warning_number_bounds (fileName : string) (ix : Index.t)
    (before after : list string) (raw line : string) :
  Z.of_nat (length (before ++ raw :: after)) < props.INT_MAX ->
  props.classify raw = props.Malformed line ->
  let n := lineNum (readLines fileName before (loopStart ix)) in
  (forall pre post, before ++ raw :: after = pre ++ post ->
     1 <= lineNum (readLines fileName pre (loopStart ix)) <= props.INT_MAX)
  /\ In (MetarDoesNotMatch fileName n line)
        (warnings (readLines fileName (before ++ raw :: after) (loopStart ix)))
  /\ 1 <= n <= Z.of_nat (length before) + 1
  /\ (Exists (fun raw' => props.classify raw' = props.Blank
                          \/ exists l, props.classify raw' = props.DateHeader l) before ->
      n < Z.of_nat (length before) + 1).
Proof.
  intros Hlen Hc n.
  destruct (lineNum_readLines fileName before (loopStart ix)) as [H1 H2].
  cbn [loopStart lineNum] in H1, H2. fold n in H1, H2.
  split; [|split; [|split; [lia | intros H; specialize (H2 H); lia]]].
  - intros pre post Heq.
    destruct (lineNum_readLines fileName pre (loopStart ix)) as [H3 _].
    cbn [loopStart lineNum] in H3.
    rewrite Heq, length_app in Hlen. lia.
  - unfold weather.readLines. rewrite fold_left_app. cbn [fold_left].
    destruct (warnings_readLines fetchAirportCoords fromString fileName after
                (readLine fileName (fold_left (readLine fileName) before (loopStart ix)) raw))
      as [more Hw].
    unfold weather.readLines in Hw. rewrite Hw, readLine_classify, Hc. cbn [warnings].
    apply in_or_app. left. apply in_or_app. right. now left.
Qed.

End LineNumbers.

(** The line [hello world] is the fourth of its file of five lines and is
    logged with the number two. *)
Lemma warning_number_bounds_witness :
  Z.of_nat (length (["2017/07/30 18:45"%string; sample.khyi1845; ""%string]
                      ++ "hello world"%string :: [sample.kpro1855])) < props.INT_MAX
  /\ In (weather.MetarDoesNotMatch sample.path 2 "hello world")
        (weather.warnings
           (weather.readLines sample.fetchAirportCoords sample.fromString sample.path
              (["2017/07/30 18:45"%string; sample.khyi1845; ""%string]
                 ++ "hello world"%string :: [sample.kpro1855])
              (weather.loopStart ∅)))
  /\ 2 < Z.of_nat (length ["2017/07/30 18:45"%string; sample.khyi1845; ""%string]) + 1.
Proof.
  assert (Hlen : Z.of_nat (length (["2017/07/30 18:45"%string; sample.khyi1845; ""%string]
                                     ++ "hello world"%string :: [sample.kpro1855]))
                 < props.INT_MAX) by reflexivity.
  destruct (warning_number_bounds sample.fetchAirportCoords sample.fromString
              sample.path ∅ ["2017/07/30 18:45"%string; sample.khyi1845; ""%string]
              [sample.kpro1855] "hello world" "hello world" Hlen eq_refl)
    as (_ & H1 & _ & H3).
  split; [exact Hlen|]. split; [exact H1|].
  apply H3. constructor. right. exists "2017/07/30 18:45"%string. reflexivity.
Defined.
